(** * Gateway and course service of microservices-fastapi

    A shallow embedding of [course-service/data_service.py],
    [course-service/models.py] and [gateway/main.py], with the properties of
    the forwarding pipeline, the token helpers, the logging middleware and
    the in-memory course collection. *)

From stdpp Require Import base decidable option list strings pretty gmap.
From Stdlib Require Import ZArith Lia Ascii String.

Local Open Scope string_scope.
Local Open Scope Z_scope.
Local Open Scope list_scope.

(** ** Python values

    Field values of the pydantic models are [None], an [int] or a [str].
    JSON documents (request bodies, error details, backend bodies) have the
    usual tree shape.  A Python dict keeps its insertion order, so it is an
    association list whose keys are kept distinct by [dict_set]. *)

Inductive pyval : Type :=
| PNone
| PInt (z : Z)
| PStr (s : string).

#[global] Instance pyval_eq_dec : EqDecision pyval.
Proof. solve_decision. Defined.

#[local] Set Warnings "-register-all".
Inductive json : Type :=
| JNull
| JBool (b : bool)
| JInt (z : Z)
| JFloat (literal : string)
| JStr (s : string)
| JArr (items : list json)
| JObj (members : list (string * json)).
#[local] Set Warnings "register-all".

Definition to_json (v : pyval) : json :=
  match v with
  | PNone => JNull
  | PInt z => JInt z
  | PStr s => JStr s
  end.

Section Dict.
Context {V : Type}.

(** [d.get(k)] *)
Fixpoint dict_get (k : string) (d : list (string * V)) : option V :=
  match d with
  | [] => None
  | (k', v) :: d' => if decide (k' = k) then Some v else dict_get k d'
  end.

(** [d[k] = v]: an existing key keeps its position, a new key goes last. *)
Fixpoint dict_set (k : string) (v : V) (d : list (string * V)) :
    list (string * V) :=
  match d with
  | [] => [(k, v)]
  | (k', v') :: d' =>
      if decide (k' = k) then (k', v) :: d' else (k', v') :: dict_set k v d'
  end.

(** [list(d.keys())] *)
Definition dict_keys (d : list (string * V)) : list string := d.*1.

(** [d.update(other)] *)
Definition dict_update (d other : list (string * V)) : list (string * V) :=
  foldl (λ acc kv, dict_set kv.1 kv.2 acc) d other.

End Dict.

Definition opt_str (o : option string) : pyval :=
  match o with Some s => PStr s | None => PNone end.

Definition opt_int (o : option Z) : pyval :=
  match o with Some z => PInt z | None => PNone end.

(** ** Pydantic models ([course-service/models.py], [gateway/main.py]) *)

(** A [Course] object.  Its attributes are declared [int] and [str], but
    pydantic does not validate on assignment, so after [setattr] an attribute
    holds whatever value was stored: every attribute is a [pyval]. *)
Record Course : Type := mkCourse {
  id : pyval;
  title : pyval;
  description : pyval;
  duration_weeks : pyval;
  instructor : pyval;
  max_students : pyval
}.

#[global] Instance Course_eq_dec : EqDecision Course.
Proof. solve_decision. Defined.

Record CourseCreate : Type := mkCourseCreate {
  cc_title : string;
  cc_description : string;
  cc_duration_weeks : Z;
  cc_instructor : string;
  cc_max_students : Z
}.

(** An update model: every field is [Optional] with default [None], and
    [fields_set] is pydantic's record of the field names that the inbound
    body gave explicitly. *)
Record CourseUpdate : Type := mkCourseUpdate {
  cu_title : option string;
  cu_description : option string;
  cu_duration_weeks : option Z;
  cu_instructor : option string;
  cu_max_students : option Z;
  cu_fields_set : gset string
}.

Record StudentCreate : Type := mkStudentCreate {
  sc_name : string;
  sc_age : Z;
  sc_email : string;
  sc_course : string
}.

Record StudentUpdate : Type := mkStudentUpdate {
  su_name : option string;
  su_age : option Z;
  su_email : option string;
  su_course : option string;
  su_fields_set : gset string
}.

(** [model.dict()]: every field, in declaration order. *)
Definition CourseCreate_dict (c : CourseCreate) : list (string * pyval) :=
  [("title", PStr (cc_title c));
   ("description", PStr (cc_description c));
   ("duration_weeks", PInt (cc_duration_weeks c));
   ("instructor", PStr (cc_instructor c));
   ("max_students", PInt (cc_max_students c))].

Definition CourseUpdate_dict (u : CourseUpdate) : list (string * pyval) :=
  [("title", opt_str (cu_title u));
   ("description", opt_str (cu_description u));
   ("duration_weeks", opt_int (cu_duration_weeks u));
   ("instructor", opt_str (cu_instructor u));
   ("max_students", opt_int (cu_max_students u))].

Definition StudentCreate_dict (s : StudentCreate) : list (string * pyval) :=
  [("name", PStr (sc_name s));
   ("age", PInt (sc_age s));
   ("email", PStr (sc_email s));
   ("course", PStr (sc_course s))].

Definition StudentUpdate_dict (u : StudentUpdate) : list (string * pyval) :=
  [("name", opt_str (su_name u));
   ("age", opt_int (su_age u));
   ("email", opt_str (su_email u));
   ("course", opt_str (su_course u))].

(** [model.dict(exclude_unset=True)]: the fields of [model.dict()] whose name
    is in [__fields_set__], order kept. *)
Definition exclude_unset (fields_set : gset string)
    (d : list (string * pyval)) : list (string * pyval) :=
  filter (λ kv, kv.1 ∈ fields_set) d.

Definition CourseUpdate_dict_exclude_unset (u : CourseUpdate) :=
  exclude_unset (cu_fields_set u) (CourseUpdate_dict u).

Definition StudentUpdate_dict_exclude_unset (u : StudentUpdate) :=
  exclude_unset (su_fields_set u) (StudentUpdate_dict u).

(** ** Results of a call: a value, or a raised exception *)

(** The httpx exception classes from [httpx.RequestError] down: the class
    itself, [TransportError] with its families of timeouts, network errors
    and protocol errors, and the two classes beside it. *)
Inductive httpx_class : Type :=
| RequestError | TransportError
| TimeoutException | ConnectTimeout | ReadTimeout | WriteTimeout | PoolTimeout
| NetworkError | ConnectError | ReadError | WriteError | CloseError
| ProtocolError | LocalProtocolError | RemoteProtocolError
| ProxyError | UnsupportedProtocol
| DecodingError | TooManyRedirects.

Inductive exn : Type :=
| HTTPException (status_code : Z) (detail : json)
| HttpxRequestError (cls : httpx_class) (message : string)
| ValueError (message : string)
| AttributeError (message : string)
| OtherException (class_name message : string)
| OtherBaseException (class_name : string).

Inductive result (A : Type) : Type :=
| Return (a : A)
| Raise (e : exn).
Arguments Return {A} a.
Arguments Raise {A} e.

(** ** [course-service/data_service.py] *)

Module CourseMockDataService.

(** The object's attributes. *)
Record t : Type := mk {
  courses : list Course;
  next_id : Z
}.

(** [__init__] *)
Definition init : t :=
  {| courses :=
       [ mkCourse (PInt 1) (PStr "Python Programming")
           (PStr "Learn Python from scratch") (PInt 8) (PStr "Dr. Smith")
           (PInt 30);
         mkCourse (PInt 2) (PStr "Web Development")
           (PStr "HTML, CSS, JavaScript basics") (PInt 10)
           (PStr "Dr. Johnson") (PInt 25);
         mkCourse (PInt 3) (PStr "Data Science")
           (PStr "Data analysis and machine learning") (PInt 12)
           (PStr "Dr. Williams") (PInt 20) ];
     next_id := 4 |}.

Definition get_all_courses (self : t) : list Course := courses self.

(** [next((c for c in self.courses if c.id == course_id), None)], with the
    position of the course found: the object returned is the one stored at
    that position, not a copy. *)
Definition find_course (course_id : Z) (self : t) : option (nat * Course) :=
  list_find (λ c, id c = PInt course_id) (courses self).

Definition get_course_by_id (course_id : Z) (self : t) : option Course :=
  snd <$> find_course course_id self.

Definition add_course (course_data : CourseCreate) (self : t) : Course * t :=
  let new_course :=
    mkCourse (PInt (next_id self)) (PStr (cc_title course_data))
      (PStr (cc_description course_data))
      (PInt (cc_duration_weeks course_data))
      (PStr (cc_instructor course_data))
      (PInt (cc_max_students course_data)) in
  (new_course,
   {| courses := courses self ++ [new_course];
      next_id := next_id self + 1 |}).

(** [setattr(course, key, value)]; pydantic refuses a name that is not a
    field of the model. *)
Definition setattr (c : Course) (key : string) (value : pyval) :
    option Course :=
  if decide (key = "id") then
    Some (mkCourse value (title c) (description c) (duration_weeks c)
            (instructor c) (max_students c))
  else if decide (key = "title") then
    Some (mkCourse (id c) value (description c) (duration_weeks c)
            (instructor c) (max_students c))
  else if decide (key = "description") then
    Some (mkCourse (id c) (title c) value (duration_weeks c)
            (instructor c) (max_students c))
  else if decide (key = "duration_weeks") then
    Some (mkCourse (id c) (title c) (description c) value
            (instructor c) (max_students c))
  else if decide (key = "instructor") then
    Some (mkCourse (id c) (title c) (description c) (duration_weeks c)
            value (max_students c))
  else if decide (key = "max_students") then
    Some (mkCourse (id c) (title c) (description c) (duration_weeks c)
            (instructor c) value)
  else None.

(** [for key, value in update_data.items(): setattr(course, key, value)].
    The loop stops at the first assignment that raises; the assignments
    made before it stay. *)
Fixpoint setattr_items (c : Course) (items : list (string * pyval)) :
    Course * bool :=
  match items with
  | [] => (c, true)
  | (key, value) :: rest =>
      match setattr c key value with
      | Some c' => setattr_items c' rest
      | None => (c, false)
      end
  end.

(** The field names of [CourseUpdate]: the keys [update_course] can hand
    to [setattr]. *)
Definition update_keys : list string :=
  ["title"; "description"; "duration_weeks"; "instructor"; "max_students"].

(** The course is updated in place: the list keeps it at its position. *)
Definition update_course (course_id : Z) (course_data : CourseUpdate)
    (self : t) : result (option Course) * t :=
  match find_course course_id self with
  | Some (i, course) =>
      let update_data := CourseUpdate_dict_exclude_unset course_data in
      let '(course', ok) := setattr_items course update_data in
      let self' :=
        {| courses := <[i := course']> (courses self);
           next_id := next_id self |} in
      if ok then (Return (Some course'), self')
      else (Raise (ValueError "object has no field"), self')
  | None => (Return None, self)
  end.

(** [list.remove(x)]: drops the first element equal to [x]; [None] stands
    for the [ValueError] raised when there is none. *)
Fixpoint list_remove (x : Course) (l : list Course) : option (list Course) :=
  match l with
  | [] => None
  | y :: l' =>
      if decide (y = x) then Some l'
      else cons y <$> list_remove x l'
  end.

Definition delete_course (course_id : Z) (self : t) : result bool * t :=
  match get_course_by_id course_id self with
  | Some course =>
      match list_remove course (courses self) with
      | Some l => (Return true, {| courses := l; next_id := next_id self |})
      | None => (Raise (ValueError "list.remove(x): x not in list"), self)
      end
  | None => (Return false, self)
  end.

(** The operations that change the collection, and their effect on it. *)
Inductive op : Type :=
| Add (course_data : CourseCreate)
| Update (course_id : Z) (course_data : CourseUpdate)
| Delete (course_id : Z).

Definition step (self : t) (o : op) : t :=
  match o with
  | Add d => (add_course d self).2
  | Update i d => (update_course i d self).2
  | Delete i => (delete_course i self).2
  end.

Definition run (ops : list op) (self : t) : t := foldl step self ops.

(** The course ids of the collection are integers, pairwise distinct, and
    below [next_id]. *)
Definition ids_ok (self : t) : Prop :=
  NoDup (id <$> courses self) ∧
  Forall (λ c, ∃ z, id c = PInt z ∧ z < next_id self) (courses self).

End CourseMockDataService.

(** ** The gateway's surroundings

    What [gateway/main.py] calls but does not define: the clock, the logging
    sink, the network, and the library functions whose results it passes
    on.  Instants are in microseconds since the epoch, the resolution of
    [datetime.utcnow()]. *)

Inductive verb : Type := GET | POST | PUT | DELETE.

(** The keyword arguments handed to the httpx client; the handlers only use
    [json=...]. *)
Record Kwargs : Type := mkKwargs { kw_json : option json }.

Definition no_kwargs : Kwargs := {| kw_json := None |}.

(** One call [client.get/post/put/delete(url, **kwargs)]. *)
Record OutboundCall : Type := mkCall {
  call_verb : verb;
  call_url : string;
  call_kwargs : Kwargs
}.

(** [httpx.Response] *)
Record HttpxResponse : Type := mkHttpxResponse {
  hr_status_code : Z;
  hr_text : string
}.

Inductive transport_outcome : Type :=
| Responded (response : HttpxResponse)
| Failed (e : exn).

Inductive level : Type := INFO | WARNING | ERROR.

(** A Python float as far as the gateway's libraries look at it: a finite
    number with its integer part and whether it is zero, a NaN, or an
    infinity. *)
Inductive pyfloat : Type :=
| Finite (truncated : Z) (nonzero : bool)
| NaN
| Infinity.

Record LogRecord : Type := mkLog { log_level : level; log_message : string }.

Class Env : Type := mkEnv {
  (** [datetime.isoformat()] of an instant *)
  isoformat : Z → string;
  (** [json.loads]; [None] when the text is not JSON, and then the message
      of the [JSONDecodeError] *)
  json_loads : string → option json;
  json_error : string → string;
  (** the signature of a token: key, algorithm, payload *)
  hmac : string → string → json → string;
  (** floating-point numbers, for [time.time()] and the elapsed time *)
  float : Type;
  float_of_instant : Z → float;
  float_of_Z : Z → float;
  fsub : float → float → float;
  fmul : float → float → float;
  fround : float → Z → float;
  float_str : float → string;
  (** [str()] of a JSON-like value *)
  py_str : json → string;
  (** the bytes [JSONResponse] renders with [json.dumps(allow_nan=False)]
      and the UTF-8 encoding; [None] when the rendering is refused (a
      number that is not finite, a lone surrogate), and then the message of
      the [ValueError]; [None] of Python always renders as null *)
  json_dumps : json → option string;
  render_error : json → string;
  json_dumps_null : json_dumps JNull = Some "null";
  (** [int()] of a [str], and the float a literal denotes *)
  int_of_str : string → option Z;
  float_of_literal : string → pyfloat;
  (** what the network answers to an outbound call, and after how long *)
  transport : OutboundCall → transport_outcome * Z
}.

(** The state a request runs in: the current instant, the outbound calls
    issued so far, and the records written to the log. *)
Record World : Type := mkWorld {
  now_us : Z;
  calls : list OutboundCall;
  log : list LogRecord
}.

Definition M (A : Type) : Type := World → result A * World.

#[global] Instance M_ret : MRet M := λ A a w, (Return a, w).

#[global] Instance M_bind : MBind M := λ A B f m w,
  match m w with
  | (Return a, w') => f a w'
  | (Raise e, w') => (Raise e, w')
  end.

Definition raise {A : Type} (e : exn) : M A := λ w, (Raise e, w).

(** [try: body  except ...: handler], the handler re-raising what it does
    not catch. *)
Definition try_except {A : Type} (body : M A) (handler : exn → M A) : M A :=
  λ w,
    match body w with
    | (Return a, w') => (Return a, w')
    | (Raise e, w') => handler e w'
    end.

Definition utcnow : M Z := λ w, (Return (now_us w), w).

Definition logger (lvl : level) (message : string) : M unit := λ w,
  (Return (),
   {| now_us := now_us w; calls := calls w;
      log := log w ++ [mkLog lvl message] |}).

Definition elapse (duration : Z) : M unit := λ w,
  (Return (),
   {| now_us := now_us w + duration; calls := calls w; log := log w |}).

Definition record_call (c : OutboundCall) : M unit := λ w,
  (Return (),
   {| now_us := now_us w; calls := calls w ++ [c]; log := log w |}).

(** Unfolds the state-and-exception operations of the request monad. *)
Ltac run :=
  unfold mbind, M_bind, mret, M_ret, raise, try_except, utcnow, logger,
    elapse, record_call; simpl.

(** [await client.get(url, **kwargs)] and its siblings: the call is issued,
    time passes, and the client returns the response or raises. *)
Definition client_request `{Env} (v : verb) (url : string) (kwargs : Kwargs) :
    M HttpxResponse :=
  let call := mkCall v url kwargs in
  record_call call ;;
  elapse (transport call).2 ;;
  match (transport call).1 with
  | Responded response => mret response
  | Failed e => raise e
  end.

(** [response.json()] *)
Definition response_json `{Env} (response : HttpxResponse) : M json :=
  match json_loads (hr_text response) with
  | Some j => mret j
  | None => raise (ValueError (json_error (hr_text response)))
  end.

(** [response.json() if response.text else None] *)
Definition json_if_text `{Env} (response : HttpxResponse) : M json :=
  if decide (hr_text response = "") then mret JNull
  else response_json response.

(** [str(e)] *)
Definition exn_str `{Env} (e : exn) : string :=
  match e with
  | HTTPException status_code detail =>
      pretty status_code +:+ ": " +:+ py_str detail
  | HttpxRequestError _ m => m
  | ValueError m => m
  | AttributeError m => m
  | OtherException _ m => m
  | OtherBaseException _ => ""
  end.

(** [isinstance(e, httpx.ConnectError)] *)
Definition is_ConnectError (c : httpx_class) : bool :=
  match c with ConnectError => true | _ => false end.

(** [isinstance(e, httpx.TimeoutException)] *)
Definition is_TimeoutException (c : httpx_class) : bool :=
  match c with
  | TimeoutException | ConnectTimeout | ReadTimeout | WriteTimeout
  | PoolTimeout => true
  | _ => false
  end.

(** [isinstance(e, Exception)] *)
Definition is_Exception (e : exn) : bool :=
  match e with OtherBaseException _ => false | _ => true end.

(** The dict a pydantic model's [dict()] gives, as the JSON the client
    sends. *)
Definition json_of_dict (d : list (string * pyval)) : json :=
  JObj (prod_map Datatypes.id to_json <$> d).

(** ** [gateway/main.py] *)

Module Gateway.

Definition SECRET_KEY : string := "your-secret-key-change-in-production".
Definition ALGORITHM : string := "HS256".
Definition ACCESS_TOKEN_EXPIRE_MINUTES : Z := 30.

Definition SERVICES : list (string * string) :=
  [("student", "http://localhost:8001");
   ("course", "http://localhost:8002")].

(** *** The token library

    [jwt.encode] and [jwt.decode] are PyJWT's (2.10 and later), not the
    gateway's; they are modelled here as the gateway calls them: one
    symmetric algorithm, no audience, issuer or subject asked for, no
    leeway, every check switched on.  A credential string is taken in
    parsed form: either it is not three segments with a header, a JSON
    payload and a signature, or it carries an algorithm name, a payload
    (members as [json.loads] gives them, keys distinct) and a signature.
    The signature function is [hmac] of the surroundings. *)

Inductive token : Type :=
| Malformed (raw : string)
| Compact (alg : string) (payload : json) (signature : string).

(** A value of the dict given to [jwt.encode]: JSON, or a [datetime]. *)
Inductive claim : Type :=
| CJson (j : json)
| CDatetime (instant : Z).

(** The subclasses of [jwt.InvalidTokenError] that a decode can raise. *)
Inductive jwt_error : Type :=
| ExpiredSignatureError
| ImmatureSignatureError
| InvalidIssuedAtError
| InvalidAudienceError
| InvalidSubjectError
| InvalidJTIError
| InvalidSignatureError
| InvalidAlgorithmError
| DecodeError.

(** [timegm(dt.utctimetuple())]: whole seconds, the microseconds dropped. *)
Definition timegm (instant : Z) : Z := instant `div` 1000000.

(** The payload as [jwt.encode] serializes it: a [datetime] under [exp],
    [iat] or [nbf] becomes its number of seconds; any other [datetime]
    cannot be serialized. *)
Fixpoint encode_claims (d : list (string * claim)) :
    option (list (string * json)) :=
  match d with
  | [] => Some []
  | (k, CJson j) :: d' => cons (k, j) <$> encode_claims d'
  | (k, CDatetime t) :: d' =>
      if decide (k = "exp" ∨ k = "iat" ∨ k = "nbf")
      then cons (k, JInt (timegm t)) <$> encode_claims d'
      else None
  end.

(** [jwt.encode]: an [iss] claim that is not a [str] is refused before the
    payload is serialized. *)
Definition jwt_encode `{Env} (payload : list (string * claim))
    (key algorithm : string) : M token :=
  match dict_get "iss" payload with
  | None | Some (CJson (JStr _)) =>
      match encode_claims payload with
      | Some p =>
          mret (Compact algorithm (JObj p) (hmac key algorithm (JObj p)))
      | None =>
          raise (OtherException "TypeError"
                   "Object of type datetime is not JSON serializable")
      end
  | Some _ =>
      raise (OtherException "TypeError" "Issuer (iss) must be a string.")
  end.

(** [int(x)] on a claim value: the integer, a [ValueError], or another
    exception ([TypeError] for a value that is no number and no string,
    [OverflowError] for an infinity). *)
Inductive int_result : Type :=
| IntOk (z : Z)
| IntValueError
| IntRaises (e : exn).

Definition py_int `{Env} (j : json) : int_result :=
  match j with
  | JInt z => IntOk z
  | JBool b => IntOk (if b then 1 else 0)
  | JFloat literal =>
      match float_of_literal literal with
      | Finite z _ => IntOk z
      | NaN => IntValueError
      | Infinity =>
          IntRaises (OtherException "OverflowError"
                       "cannot convert float infinity to integer")
      end
  | JStr s =>
      match int_of_str s with Some z => IntOk z | None => IntValueError end
  | JNull =>
      IntRaises (OtherException "TypeError"
        "int() argument must be a string, a bytes-like object or a real number, not 'NoneType'")
  | JArr _ =>
      IntRaises (OtherException "TypeError"
        "int() argument must be a string, a bytes-like object or a real number, not 'list'")
  | JObj _ =>
      IntRaises (OtherException "TypeError"
        "int() argument must be a string, a bytes-like object or a real number, not 'dict'")
  end.

(** The truth value of a claim value, as in [not payload["aud"]]. *)
Definition py_truthy `{Env} (j : json) : bool :=
  match j with
  | JNull => false
  | JBool b => b
  | JInt z => negb (bool_decide (z = 0))
  | JFloat literal =>
      match float_of_literal literal with
      | Finite _ nonzero => nonzero
      | _ => true
      end
  | JStr s => negb (bool_decide (s = ""))
  | JArr items => negb (bool_decide (items = []))
  | JObj members => negb (bool_decide (members = []))
  end.

(** The outcome of one claim check, and of the checks in a row. *)
Inductive checked : Type :=
| Passed
| Rejected (e : jwt_error)
| Crashed (e : exn).

Definition and_then (c : checked) (next : checked) : checked :=
  match c with Passed => next | _ => c end.

(** A time claim: when the key is present, [int()] of its value is taken
    (a [ValueError] gives [bad_value], anything else raised by [int()]
    passes through) and compared with the instant [now]. *)
Definition check_time_claim `{Env} (payload : list (string * json))
    (key : string) (bad_value : jwt_error) (refused : Z → Prop)
    `{∀ z, Decision (refused z)} (e : jwt_error) : checked :=
  match dict_get key payload with
  | None => Passed
  | Some v =>
      match py_int v with
      | IntOk z => if decide (refused z) then Rejected e else Passed
      | IntValueError => Rejected bad_value
      | IntRaises other => Crashed other
      end
  end.

(** A claim that must be a [str] when it is present. *)
Definition check_str_claim (payload : list (string * json)) (key : string)
    (e : jwt_error) : checked :=
  match dict_get key payload with
  | None | Some (JStr _) => Passed
  | Some _ => Rejected e
  end.

(** The checks of the registered claims, in the library's order: [iat] and
    [nbf] must not lie after [now], [exp] must lie after it, an [aud] that
    is not empty is refused because no audience is asked for, [sub] and
    [jti] must be strings. *)
Definition validate_claims `{Env} (payload : list (string * json))
    (now : Z) : checked :=
  and_then (check_time_claim payload "iat" InvalidIssuedAtError
              (λ iat, now < iat * 1000000) ImmatureSignatureError)
  (and_then (check_time_claim payload "nbf" DecodeError
               (λ nbf, now < nbf * 1000000) ImmatureSignatureError)
  (and_then (check_time_claim payload "exp" DecodeError
               (λ exp, exp * 1000000 ≤ now) ExpiredSignatureError)
  (and_then (match dict_get "aud" payload with
             | Some aud =>
                 if py_truthy aud then Rejected InvalidAudienceError
                 else Passed
             | None => Passed
             end)
  (and_then (check_str_claim payload "sub" InvalidSubjectError)
            (check_str_claim payload "jti" InvalidJTIError))))).

(** What [jwt.decode] ends in: the payload, one of the library's
    [InvalidTokenError]s, or an exception of another class. *)
Inductive decoded : Type :=
| Decoded (payload : list (string * json))
| JwtRaises (e : jwt_error)
| OtherRaises (e : exn).

(** [jwt.decode(token, key, algorithms=[...])] at instant [now]: the
    algorithm and the signature are checked first, then the payload must
    be a JSON object, then its registered claims are checked. *)
Definition jwt_decode `{Env} (t : token) (key : string)
    (algorithms : list string) (now : Z) : decoded :=
  match t with
  | Malformed _ => JwtRaises DecodeError
  | Compact alg payload signature =>
      if decide (alg ∈ algorithms) then
        if decide (signature = hmac key alg payload) then
          match payload with
          | JObj p =>
              match validate_claims p now with
              | Passed => Decoded p
              | Rejected e => JwtRaises e
              | Crashed e => OtherRaises e
              end
          | _ => JwtRaises DecodeError
          end
        else JwtRaises InvalidSignatureError
      else JwtRaises InvalidAlgorithmError
  end.

(** *** Activity 2: JWT helper functions *)

Definition create_access_token `{Env} (data : list (string * claim)) :
    M token :=
  let to_encode := data in
  now ← utcnow;
  let expire := now + ACCESS_TOKEN_EXPIRE_MINUTES * 60 * 1000000 in
  let to_encode := dict_update to_encode [("exp", CDatetime expire)] in
  jwt_encode to_encode SECRET_KEY ALGORITHM.

Definition error_detail `{Env} (code message : string)
    (extra : list (string * json)) (now : Z) : json :=
  JObj ([("error", JStr code); ("message", JStr message)] ++ extra ++
        [("timestamp", JStr (isoformat now))]).

Record HTTPAuthorizationCredentials : Type := mkCredentials {
  scheme : string;
  credentials : token
}.

Definition verify_token `{Env} (creds : HTTPAuthorizationCredentials) :
    M json :=
  now ← utcnow;
  match jwt_decode (credentials creds) SECRET_KEY [ALGORITHM] now with
  | Decoded payload =>
      match dict_get "sub" payload with
      | None | Some JNull =>
          now ← utcnow;
          raise (HTTPException 401
                   (error_detail "INVALID_TOKEN" "Token payload is invalid"
                      [] now))
      | Some username => mret username
      end
  | JwtRaises ExpiredSignatureError =>
      now ← utcnow;
      raise (HTTPException 401
               (error_detail "TOKEN_EXPIRED"
                  "Token has expired. Please login again." [] now))
  | JwtRaises _ =>
      now ← utcnow;
      raise (HTTPException 401
               (error_detail "INVALID_TOKEN" "Could not validate token"
                  [] now))
  | OtherRaises e => raise e
  end.

(** *** Requests and responses of the web framework *)

Record Request : Type := mkRequest {
  req_method : string;
  req_path : string;
  req_client : option string
}.

Record Response : Type := mkResponse {
  status_code : Z;
  content : json;
  headers : list (string * string)
}.

Definition ascii_lower (c : ascii) : ascii :=
  let n := N_of_ascii c in
  if ((65 <=? n) && (n <=? 90))%N then ascii_of_N (n + 32) else c.

(** [str.lower()] on header names *)
Fixpoint lower (s : string) : string :=
  match s with
  | EmptyString => EmptyString
  | String c s' => String (ascii_lower c) (lower s')
  end.

(** [response.headers[key] = value]: names are kept in lower case; the
    first entry of that name is overwritten and later ones are dropped, a
    new name goes last. *)
Fixpoint headers_set (key value : string) (hs : list (string * string)) :
    list (string * string) :=
  match hs with
  | [] => [(key, value)]
  | (k, v) :: hs' =>
      if decide (k = key)
      then (key, value) :: filter (λ kv, kv.1 ≠ key) hs'
      else (k, v) :: headers_set key value hs'
  end.

Definition headers_setitem (key value : string) (r : Response) : Response :=
  {| status_code := status_code r; content := content r;
     headers := headers_set (lower key) value (headers r) |}.

(** [response.headers.get(key)] *)
Definition headers_get (key : string) (r : Response) : option string :=
  dict_get (lower key) (headers r).

(** The response object once its content is rendered to [body]. *)
Definition rendered_response (body : string) (content : json)
    (status_code : Z) : Response :=
  {| status_code := status_code; content := content;
     headers :=
       (if decide (status_code < 200 ∨ status_code = 204 ∨
                   status_code = 304)
        then []
        else [("content-length", pretty (Z.of_nat (String.length body)))])
       ++ [("content-type", "application/json")] |}.

(** [JSONResponse(content=..., status_code=...)]: the constructor renders
    the content, and raises the [ValueError] of the rendering when the
    content cannot be rendered. *)
Definition JSONResponse `{Env} (content : json) (status_code : Z) :
    M Response :=
  match json_dumps content with
  | Some body => mret (rendered_response body content status_code)
  | None => raise (ValueError (render_error content))
  end.

(** *** Activity 3: request logging middleware *)

(** [time.time()] *)
Definition time_time `{Env} : M float :=
  now ← utcnow; mret (float_of_instant now).

(** [round((time.time() - start_time) * 1000, 2)] *)
Definition process_time_since `{Env} (start_time : float) : M float :=
  t ← time_time;
  mret (fround (fmul (fsub t start_time) (float_of_Z 1000)) 2).

(** [request.client.host] *)
Definition client_host (request : Request) : M string :=
  match req_client request with
  | Some host => mret host
  | None =>
      raise (AttributeError "'NoneType' object has no attribute 'host'")
  end.

Definition log_requests `{Env} (request : Request)
    (call_next : Request → M Response) : M Response :=
  start_time ← time_time;
  host ← client_host request;
  logger INFO ("REQUEST  | " +:+ req_method request +:+ " " +:+
               req_path request +:+ " | Client: " +:+ host) ;;
  try_except
    (response ← call_next request;
     process_time ← process_time_since start_time;
     logger INFO ("RESPONSE | " +:+ req_method request +:+ " " +:+
                  req_path request +:+ " | Status: " +:+
                  pretty (status_code response) +:+ " | Time: " +:+
                  float_str process_time +:+ "ms") ;;
     mret (headers_setitem "X-Process-Time"
             (float_str process_time +:+ "ms") response))
    (λ e,
       if is_Exception e then
         process_time ← process_time_since start_time;
         logger ERROR ("ERROR    | " +:+ req_method request +:+ " " +:+
                       req_path request +:+ " | Error: " +:+ exn_str e +:+
                       " | Time: " +:+ float_str process_time +:+ "ms") ;;
         raise e
       else raise e).

(** The world in which the middleware hands the request on: the request
    line is in the log. *)
Definition entered (request : Request) (host : string) (w : World) :
    World :=
  {| now_us := now_us w; calls := calls w;
     log := log w ++
            [mkLog INFO ("REQUEST  | " +:+ req_method request +:+ " " +:+
                         req_path request +:+ " | Client: " +:+ host)] |}.

(** The elapsed milliseconds between two instants, as the middleware
    computes them. *)
Definition elapsed_ms `{Env} (start finish : Z) : float :=
  fround (fmul (fsub (float_of_instant finish) (float_of_instant start))
            (float_of_Z 1000)) 2.

(** *** Activity 4: forward_request *)

(** The dispatch on [method]: the four client calls, or the 405 error. *)
Definition dispatch `{Env} (method url : string) (kwargs : Kwargs) :
    M HttpxResponse :=
  if decide (method = "GET") then client_request GET url kwargs
  else if decide (method = "POST") then client_request POST url kwargs
  else if decide (method = "PUT") then client_request PUT url kwargs
  else if decide (method = "DELETE") then client_request DELETE url kwargs
  else
    now ← utcnow;
    raise (HTTPException 405
             (error_detail "METHOD_NOT_ALLOWED"
                ("HTTP method '" +:+ method +:+ "' is not supported")
                [] now)).

(** The [except] clauses of [forward_request], in their order. *)
Definition transport_handler `{Env} (service url base : string) (e : exn) :
    M Response :=
  match e with
  | HttpxRequestError cls _ =>
      if is_ConnectError cls then
        logger ERROR ("Cannot connect to " +:+ service +:+
                      " service at " +:+ url) ;;
        now ← utcnow;
        raise (HTTPException 503
                 (error_detail "SERVICE_UNAVAILABLE"
                    ("Cannot connect to " +:+ service +:+
                     " service. Make sure it is running.")
                    [("service_url", JStr base)] now))
      else if is_TimeoutException cls then
        logger ERROR ("Timeout connecting to " +:+ service +:+
                      " service at " +:+ url) ;;
        now ← utcnow;
        raise (HTTPException 504
                 (error_detail "GATEWAY_TIMEOUT"
                    ("The " +:+ service +:+
                     " service took too long to respond")
                    [] now))
      else
        logger ERROR ("Request error for " +:+ service +:+ " service: " +:+
                      exn_str e) ;;
        now ← utcnow;
        raise (HTTPException 503
                 (error_detail "REQUEST_FAILED"
                    ("Failed to reach " +:+ service +:+ " service: " +:+
                     exn_str e)
                    [] now))
  | _ => raise e
  end.

Definition forward_request `{Env} (service path method : string)
    (kwargs : Kwargs) : M Response :=
  match dict_get service SERVICES with
  | None =>
      logger WARNING ("Unknown service requested: " +:+ service) ;;
      now ← utcnow;
      raise (HTTPException 404
               (error_detail "SERVICE_NOT_FOUND"
                  ("Service '" +:+ service +:+ "' does not exist")
                  [("available_services",
                    JArr (JStr <$> dict_keys SERVICES))] now))
  | Some base =>
      let url := base +:+ path in
      logger INFO ("FORWARDING | " +:+ method +:+ " → " +:+ url) ;;
      try_except
        (response ← dispatch method url kwargs;
         if decide (hr_status_code response = 404) then
           now ← utcnow;
           raise (HTTPException 404
                    (error_detail "RESOURCE_NOT_FOUND"
                       ("The requested resource was not found in " +:+
                        service +:+ " service")
                       [("path", JStr path)] now))
         else if decide (hr_status_code response = 422) then
           details ← json_if_text response;
           now ← utcnow;
           raise (HTTPException 422
                    (error_detail "VALIDATION_ERROR"
                       "Request data failed validation"
                       [("details", details)] now))
         else if decide (500 ≤ hr_status_code response) then
           now ← utcnow;
           raise (HTTPException 502
                    (error_detail "SERVICE_ERROR"
                       ("The " +:+ service +:+
                        " service encountered an internal error")
                       [] now))
         else
           content ← json_if_text response;
           JSONResponse content (hr_status_code response))
        (transport_handler service url base)
  end.

(** The method names [forward_request] has a client call for. *)
Definition verb_of (method : string) : option verb :=
  if decide (method = "GET") then Some GET
  else if decide (method = "POST") then Some POST
  else if decide (method = "PUT") then Some PUT
  else if decide (method = "DELETE") then Some DELETE
  else None.

(** The world in which [forward_request] classifies the outcome of its
    outbound call: the call is on record, its duration has passed, and
    the forwarding line is in the log. *)
Definition after_call `{Env} (base path method : string) (v : verb)
    (kwargs : Kwargs) (w : World) : World :=
  let call := mkCall v (base +:+ path) kwargs in
  {| now_us := now_us w + (transport call).2;
     calls := calls w ++ [call];
     log := log w ++
            [mkLog INFO ("FORWARDING | " +:+ method +:+ " → " +:+
                         base +:+ path)] |}.

(** *** Root and login routes *)

Definition read_root : json :=
  JObj [("message", JStr "API Gateway is running");
        ("available_services", JArr (JStr <$> dict_keys SERVICES));
        ("version", JStr "1.0.0")].

Record LoginRequest : Type := mkLogin { username : string; password : string }.

Record LoginResult : Type := mkLoginResult {
  access_token : token;
  token_type : string;
  expires_in : string
}.

Definition USERS : list (string * string) :=
  [("admin", "password123"); ("student", "student123")].

Definition login `{Env} (creds : LoginRequest) : M LoginResult :=
  if decide (dict_get (username creds) USERS = Some (password creds)) then
    tok ← create_access_token [("sub", CJson (JStr (username creds)))];
    logger INFO ("Successful login for user: " +:+ username creds) ;;
    mret {| access_token := tok; token_type := "bearer";
            expires_in := pretty ACCESS_TOKEN_EXPIRE_MINUTES +:+ " minutes" |}
  else
    logger WARNING ("Failed login attempt for user: " +:+ username creds) ;;
    now ← utcnow;
    raise (HTTPException 401
             (error_detail "INVALID_CREDENTIALS"
                "Incorrect username or password" [] now)).

(** *** Student and course routes

    [current_user] is what the [verify_token] dependency returned. *)

Definition json_kwargs (d : list (string * pyval)) : Kwargs :=
  {| kw_json := Some (json_of_dict d) |}.

Definition get_all_students `{Env} (current_user : json) : M Response :=
  forward_request "student" "/api/students" "GET" no_kwargs.

Definition get_student `{Env} (student_id : Z) (current_user : json) :
    M Response :=
  forward_request "student" ("/api/students/" +:+ pretty student_id) "GET"
    no_kwargs.

Definition create_student `{Env} (student : StudentCreate)
    (current_user : json) : M Response :=
  forward_request "student" "/api/students" "POST"
    (json_kwargs (StudentCreate_dict student)).

Definition update_student `{Env} (student_id : Z) (student : StudentUpdate)
    (current_user : json) : M Response :=
  forward_request "student" ("/api/students/" +:+ pretty student_id) "PUT"
    (json_kwargs (StudentUpdate_dict_exclude_unset student)).

Definition delete_student `{Env} (student_id : Z) (current_user : json) :
    M Response :=
  forward_request "student" ("/api/students/" +:+ pretty student_id)
    "DELETE" no_kwargs.

Definition get_all_courses `{Env} (current_user : json) : M Response :=
  forward_request "course" "/api/courses" "GET" no_kwargs.

Definition get_course `{Env} (course_id : Z) (current_user : json) :
    M Response :=
  forward_request "course" ("/api/courses/" +:+ pretty course_id) "GET"
    no_kwargs.

Definition create_course `{Env} (course : CourseCreate)
    (current_user : json) : M Response :=
  forward_request "course" "/api/courses" "POST"
    (json_kwargs (CourseCreate_dict course)).

Definition update_course `{Env} (course_id : Z) (course : CourseUpdate)
    (current_user : json) : M Response :=
  forward_request "course" ("/api/courses/" +:+ pretty course_id) "PUT"
    (json_kwargs (CourseUpdate_dict_exclude_unset course)).

Definition delete_course `{Env} (course_id : Z) (current_user : json) :
    M Response :=
  forward_request "course" ("/api/courses/" +:+ pretty course_id) "DELETE"
    no_kwargs.

End Gateway.

(** ** Partial-update bodies

    [partial_body fields_set model body]: the JSON object [body] has one
    member for each field of [model] named in [fields_set], carrying the
    model's value, and no other member. *)
Definition partial_body (fields_set : gset string)
    (model : list (string * pyval)) (body : list (string * json)) : Prop :=
  NoDup (dict_keys body) ∧
  (∀ k, k ∈ dict_keys body ↔ k ∈ fields_set ∧ k ∈ dict_keys model) ∧
  (∀ k, k ∈ fields_set →
        dict_get k body = to_json <$> dict_get k model) ∧
  (∀ k, k ∉ fields_set → dict_get k body = None).

(** ** Sample surroundings, used to run the definitions on concrete inputs

    A small stand-in for the libraries: it parses and renders only the few
    documents the examples use. *)

Definition sample_loads (s : string) : option json :=
  if decide (s = "[]") then Some (JArr [])
  else if decide (s = "[1e999]") then Some (JArr [JFloat "inf"])
  else None.

Definition sample_dumps (j : json) : option string :=
  match j with
  | JNull => Some "null"
  | JArr [] => Some "[]"
  | JObj [] => Some "{}"
  | _ => None
  end.

Definition sample_env (net : OutboundCall → transport_outcome * Z) : Env :=
  {| isoformat := pretty;
     json_loads := sample_loads;
     json_error := λ _, "Expecting value: line 1 column 1 (char 0)";
     hmac := λ key alg _, key +:+ alg;
     float := Z;
     float_of_instant := λ t, t;
     float_of_Z := λ z, z;
     fsub := Z.sub;
     fmul := Z.mul;
     fround := λ x _, x;
     float_str := pretty;
     py_str := λ _, "";
     json_dumps := sample_dumps;
     render_error := λ _, "Out of range float values are not JSON compliant";
     json_dumps_null := eq_refl;
     int_of_str := λ s, if decide (s = "1800") then Some 1800 else None;
     float_of_literal := λ s, if decide (s = "inf") then Infinity else NaN;
     transport := net |}.

Definition sample_world : World := {| now_us := 0; calls := []; log := [] |}.

Definition net_500 (c : OutboundCall) : transport_outcome * Z :=
  (Responded (mkHttpxResponse 500 "Internal Server Error"), 1500).

Definition net_200 (c : OutboundCall) : transport_outcome * Z :=
  (Responded (mkHttpxResponse 200 "[]"), 1500).

Definition net_204 (c : OutboundCall) : transport_outcome * Z :=
  (Responded (mkHttpxResponse 204 ""), 1500).

Definition net_200_html (c : OutboundCall) : transport_outcome * Z :=
  (Responded (mkHttpxResponse 200 "<html>"), 1500).

Definition net_200_inf (c : OutboundCall) : transport_outcome * Z :=
  (Responded (mkHttpxResponse 200 "[1e999]"), 1500).

Definition net_refused (c : OutboundCall) : transport_outcome * Z :=
  (Failed (HttpxRequestError ConnectError "All connection attempts failed"),
   20).

Definition net_slow (c : OutboundCall) : transport_outcome * Z :=
  (Failed (HttpxRequestError ReadTimeout "timed out"), 10000000).

Definition net_broken (c : OutboundCall) : transport_outcome * Z :=
  (Failed (HttpxRequestError RemoteProtocolError "Server disconnected"), 300).

Definition sample_request : Gateway.Request :=
  Gateway.mkRequest "GET" "/gateway/courses" (Some "127.0.0.1").

(** ** What the data service stores on an update

    [updated_course c u]: the course [c] with every field named in the
    update's [__fields_set__] replaced by the update's value, an explicit
    null included, and every other field, the id among them, as it was. *)
Definition updated_course (c : Course) (u : CourseUpdate) : Course :=
  let fs := cu_fields_set u in
  {| id := id c;
     title :=
       if decide ("title" ∈ fs) then opt_str (cu_title u) else title c;
     description :=
       if decide ("description" ∈ fs) then opt_str (cu_description u)
       else description c;
     duration_weeks :=
       if decide ("duration_weeks" ∈ fs) then opt_int (cu_duration_weeks u)
       else duration_weeks c;
     instructor :=
       if decide ("instructor" ∈ fs) then opt_str (cu_instructor u)
       else instructor c;
     max_students :=
       if decide ("max_students" ∈ fs) then opt_int (cu_max_students u)
       else max_students c |}.

(** The number of [add_course] calls in a sequence of operations. *)
Fixpoint count_adds (ops : list CourseMockDataService.op) : Z :=
  match ops with
  | [] => 0
  | CourseMockDataService.Add _ :: ops' => 1 + count_adds ops'
  | _ :: ops' => count_adds ops'
  end.

(** ** Protected routes

    Every student and course route declares
    [current_user: str = Depends(verify_token)]: the framework runs
    [verify_token] on the request's credentials first and calls the
    endpoint with its result; when the dependency raises, the endpoint is
    not called. *)
Definition protected `{Env} {A : Type}
    (creds : Gateway.HTTPAuthorizationCredentials)
    (endpoint : json → M A) : M A :=
  current_user ← Gateway.verify_token creds; endpoint current_user.

(** A dict of JSON values as the argument of [create_access_token]. *)
Definition json_claims (data : list (string * json)) :
    list (string * Gateway.claim) :=
  prod_map Datatypes.id Gateway.CJson <$> data.

(** The token [create_access_token] issues for a login of [subject] with
    expiry [exp]. *)
Definition issued `{Env} (subject : string) (exp : Z) : Gateway.token :=
  let payload := JObj [("sub", JStr subject); ("exp", JInt exp)] in
  Gateway.Compact Gateway.ALGORITHM payload
    (hmac Gateway.SECRET_KEY Gateway.ALGORITHM payload).

(** The registered claims of a payload admit the instant [now]: an [iat]
    or [nbf], when present, is a number of seconds that does not lie after
    [now]; an [exp], when present, is a number of seconds that lies after
    [now]; an [aud], when present, is empty; a [sub] and a [jti], when
    present, are strings.  A number of seconds is whatever [int()] makes
    of the value. *)
Definition claims_admit `{Env} (payload : list (string * json)) (now : Z) :
    Prop :=
  (∀ v, dict_get "iat" payload = Some v →
        ∃ z, Gateway.py_int v = Gateway.IntOk z ∧ z * 1000000 ≤ now) ∧
  (∀ v, dict_get "nbf" payload = Some v →
        ∃ z, Gateway.py_int v = Gateway.IntOk z ∧ z * 1000000 ≤ now) ∧
  (∀ v, dict_get "exp" payload = Some v →
        ∃ z, Gateway.py_int v = Gateway.IntOk z ∧ now < z * 1000000) ∧
  (∀ v, dict_get "aud" payload = Some v → Gateway.py_truthy v = false) ∧
  (∀ v, dict_get "sub" payload = Some v → ∃ s, v = JStr s) ∧
  (∀ v, dict_get "jti" payload = Some v → ∃ s, v = JStr s).

(** [e] is what [int()] raises on the value of a time claim of the
    payload. *)
Definition int_raised_on `{Env} (payload : list (string * json)) (e : exn) :
    Prop :=
  ∃ k v, k ∈ ["iat"; "nbf"; "exp"] ∧ dict_get k payload = Some v ∧
         Gateway.py_int v = Gateway.IntRaises e.

(** [response.json() if response.text else None] as a value: null for an
    empty body, the parsed body otherwise, nothing when the body is not
    JSON. *)
Definition parsed_body `{Env} (response : HttpxResponse) : option json :=
  if decide (hr_text response = "") then Some JNull
  else json_loads (hr_text response).

(** The status and error code of each error [forward_request] builds. *)
Definition forward_errors : list (Z * string) :=
  [(404, "SERVICE_NOT_FOUND"); (405, "METHOD_NOT_ALLOWED");
   (404, "RESOURCE_NOT_FOUND"); (422, "VALIDATION_ERROR");
   (502, "SERVICE_ERROR"); (503, "SERVICE_UNAVAILABLE");
   (504, "GATEWAY_TIMEOUT"); (503, "REQUEST_FAILED")].

Definition net_404 (c : OutboundCall) : transport_outcome * Z :=
  (Responded (mkHttpxResponse 404 "[]"), 700).

Definition net_422 (c : OutboundCall) : transport_outcome * Z :=
  (Responded (mkHttpxResponse 422 "[]"), 700).

Definition net_422_html (c : OutboundCall) : transport_outcome * Z :=
  (Responded (mkHttpxResponse 422 "<html>"), 700).

Definition net_invalid_url (c : OutboundCall) : transport_outcome * Z :=
  (Failed (OtherException "InvalidURL" "Invalid non-printable character"),
   0).

(** * Properties *)

(** ** The course collection *)

Module CourseFacts.
Import CourseMockDataService.

Lemma list_find_split {A} (P : A → Prop) `{∀ x, Decision (P x)}
    (l : list A) i x :
  list_find P l = Some (i, x) →
  ∃ l1 l2, l = l1 ++ x :: l2 ∧ Forall (λ y, ¬ P y) l1 ∧ P x ∧
           List.length l1 = i.
Proof.
  revert i. induction l as [|y l IH]; intros i Hf; simpl in Hf; [done|].
  destruct (decide (P y)) as [Hy|Hy].
  - inversion Hf; subst. by exists [], l.
  - destruct (list_find P l) as [[j z]|] eqn:E; simplify_eq/=.
    destruct (IH j eq_refl) as (l1 & l2 & -> & Hl1 & Hx & Hlen).
    exists (y :: l1), l2. split_and!; simpl; auto.
Qed.

Lemma list_remove_middle (l1 l2 : list Course) (c : Course) :
  c ∉ l1 → list_remove c (l1 ++ c :: l2) = Some (l1 ++ l2).
Proof.
  induction l1 as [|y l1 IH]; intros Hnin; simpl.
  - by rewrite decide_True.
  - apply not_elem_of_cons in Hnin as [Hne Hnin].
    rewrite decide_False by done. by rewrite IH.
Qed.

Lemma get_course_by_id_None (self : t) (course_id : Z) :
  get_course_by_id course_id self = None ↔
  ∀ c, c ∈ courses self → id c ≠ PInt course_id.
Proof.
  unfold get_course_by_id, find_course.
  rewrite fmap_None, list_find_None, Forall_forall. done.
Qed.

(** Deleting the second of the three initial courses, and updating it with
    a title and an explicit null for the instructor. *)
Example delete_second_course :
  id <$> courses (delete_course 2 init).2 = [PInt 1; PInt 3].
Proof. reflexivity. Qed.

Example update_second_course :
  (update_course 2
     (mkCourseUpdate (Some "Web") None None None None
        {["title"; "instructor"]}) init).1 =
  Return (Some (mkCourse (PInt 2) (PStr "Web")
                  (PStr "HTML, CSS, JavaScript basics") (PInt 10) PNone
                  (PInt 25))).
Proof. by vm_compute. Qed.

(** C9: [delete_course] on any state.  When a course with the id is
    present, the result is [True] and the collection loses exactly the
    first course carrying that id, every other course staying in place;
    when none is present, the result is [False] and the state is the
    same. *)
Theorem delete_course_spec (self : t) (course_id : Z) :
  ((∃ c, c ∈ courses self ∧ id c = PInt course_id) →
   ∃ l1 c l2,
     courses self = l1 ++ c :: l2 ∧
     id c = PInt course_id ∧
     Forall (λ c', id c' ≠ PInt course_id) l1 ∧
     delete_course course_id self =
       (Return true, {| courses := l1 ++ l2; next_id := next_id self |})) ∧
  ((∀ c, c ∈ courses self → id c ≠ PInt course_id) →
   delete_course course_id self = (Return false, self)).
Proof.
  split.
  - intros (c0 & Hin & Hid).
    destruct (find_course course_id self) as [[i c]|] eqn:Hfind.
    + pose proof Hfind as Hsplit. unfold find_course in Hsplit.
      apply list_find_split in Hsplit as (l1 & l2 & Hl & Hl1 & Hc & _).
      exists l1, c, l2. split_and!; try done.
      unfold delete_course, get_course_by_id. rewrite Hfind. simpl.
      rewrite Hl, list_remove_middle; [done|].
      intros Hmem. rewrite Forall_forall in Hl1. by apply (Hl1 c).
    + exfalso. unfold find_course in Hfind.
      rewrite list_find_None, Forall_forall in Hfind. by apply (Hfind c0).
  - intros Hnone. apply get_course_by_id_None in Hnone.
    unfold delete_course. by rewrite Hnone.
Qed.

Lemma delete_course_spec_witness :
  (∃ l1 c l2,
     courses init = l1 ++ c :: l2 ∧
     id c = PInt 2 ∧
     Forall (λ c', id c' ≠ PInt 2) l1 ∧
     delete_course 2 init =
       (Return true, {| courses := l1 ++ l2; next_id := 4 |})) ∧
  delete_course 7 init = (Return false, init).
Proof.
  split.
  - apply (proj1 (delete_course_spec init 2)).
    exists (mkCourse (PInt 2) (PStr "Web Development")
              (PStr "HTML, CSS, JavaScript basics") (PInt 10)
              (PStr "Dr. Johnson") (PInt 25)).
    split; [|reflexivity].
    apply (bool_decide_unpack _). reflexivity.
  - apply (proj2 (delete_course_spec init 7)).
    apply Forall_forall. apply (bool_decide_unpack _). reflexivity.
Defined.

Lemma setattr_keeps_id (c : Course) (key : string) (value : pyval) :
  key ∈ update_keys → ∃ c', setattr c key value = Some c' ∧ id c' = id c.
Proof.
  unfold update_keys. rewrite !elem_of_cons, elem_of_nil.
  intros [->|[->|[->|[->|[->|[]]]]]]; eexists; split;
    first [reflexivity | done].
Qed.

Lemma setattr_items_keeps_id (items : list (string * pyval)) (c : Course) :
  Forall (λ kv, kv.1 ∈ update_keys) items →
  ∃ c', setattr_items c items = (c', true) ∧ id c' = id c.
Proof.
  revert c. induction items as [|[key value] items IH]; intros c Hall.
  - by exists c.
  - apply Forall_cons in Hall as [Hkey Hall]. simpl in Hkey.
    destruct (setattr_keeps_id c key value Hkey) as (c1 & Hset & Hid1).
    destruct (IH c1 Hall) as (c' & Hrest & Hid').
    exists c'. simpl. rewrite Hset. split; [done | congruence].
Qed.

Lemma update_data_keys (u : CourseUpdate) :
  Forall (λ kv, kv.1 ∈ update_keys) (CourseUpdate_dict_exclude_unset u).
Proof.
  unfold CourseUpdate_dict_exclude_unset, exclude_unset.
  apply Forall_forall. intros [k v] Hin.
  apply list_elem_of_filter in Hin as [_ Hin]. revert Hin.
  unfold CourseUpdate_dict, update_keys.
  rewrite !elem_of_cons, !elem_of_nil. simpl.
  intros [E|[E|[E|[E|[E|[]]]]]]; inversion E; tauto.
Qed.

(** [update_course] never raises and leaves every id where it was. *)
Lemma update_course_ids (course_id : Z) (u : CourseUpdate) (self : t) :
  (∃ r, (update_course course_id u self).1 = Return r) ∧
  id <$> courses (update_course course_id u self).2 = id <$> courses self ∧
  next_id (update_course course_id u self).2 = next_id self.
Proof.
  unfold update_course.
  destruct (find_course course_id self) as [[i c]|] eqn:Hfind; [|by eauto].
  destruct (setattr_items_keeps_id _ c (update_data_keys u))
    as (c' & Hitems & Hid).
  rewrite Hitems. simpl. split_and!; [by eauto| |done].
  unfold find_course in Hfind. apply list_find_Some in Hfind as (Hi & _).
  rewrite list_fmap_insert, Hid. apply list_insert_id.
  by rewrite list_lookup_fmap, Hi.
Qed.

Lemma Forall_ids (P : pyval → Prop) (l l' : list Course) :
  id <$> l = id <$> l' →
  Forall (λ c, P (id c)) l' → Forall (λ c, P (id c)) l.
Proof.
  intros Heq Hl'. apply (proj1 (Forall_fmap id P l)). rewrite Heq.
  by apply (proj2 (Forall_fmap id P l')).
Qed.

Lemma ids_ok_init : ids_ok init.
Proof.
  split.
  - apply (bool_decide_unpack _). reflexivity.
  - simpl. repeat (apply Forall_cons; split; [eexists; split; [done|lia]|]).
    apply Forall_nil_2.
Qed.

Lemma ids_ok_step (self : t) (o : op) : ids_ok self → ids_ok (step self o).
Proof.
  intros [Hnd Hlt]. destruct o as [d|i d|i]; simpl.
  - split; simpl.
    + rewrite fmap_app. simpl. apply NoDup_app. split_and!; [done| |].
      * intros x Hx Hx'. apply list_elem_of_singleton in Hx' as ->.
        apply list_elem_of_fmap in Hx as (c & Hc & Hin).
        rewrite Forall_forall in Hlt.
        destruct (Hlt c Hin) as (z & Hz & Hzlt). simpl in Hc.
        rewrite Hz in Hc. simplify_eq. lia.
      * apply NoDup_singleton.
    + apply Forall_app. split.
      * eapply Forall_impl; [exact Hlt|]. simpl.
        intros c (z & Hz & Hzlt). exists z. split; [done|lia].
      * apply Forall_singleton. simpl. eexists. split; [done|lia].
  - destruct (update_course_ids i d self) as (_ & Hids & Hnext).
    split.
    + by rewrite Hids.
    + rewrite Hnext.
      by apply (Forall_ids (λ v, ∃ z, v = PInt z ∧ z < next_id self)
                  _ _ Hids).
  - unfold delete_course.
    destruct (get_course_by_id i self) as [c|] eqn:Hget; [|done].
    unfold get_course_by_id in Hget.
    destruct (find_course i self) as [[n c']|] eqn:Hfind; simplify_eq/=.
    unfold find_course in Hfind.
    apply list_find_split in Hfind as (l1 & l2 & Hl & Hl1 & Hc & _).
    rewrite Hl, list_remove_middle.
    2:{ intros Hmem. rewrite Forall_forall in Hl1. by apply (Hl1 c). }
    simpl. rewrite Hl in Hnd, Hlt. split; simpl.
    + rewrite fmap_app in *. simpl in Hnd.
      apply NoDup_app in Hnd as (Hn1 & Hdisj & Hn2).
      apply NoDup_cons in Hn2 as [_ Hn2].
      apply NoDup_app. split_and!; [done| |done].
      intros x Hx Hx'. apply (Hdisj x Hx). by right.
    + apply Forall_app in Hlt as [H1 H2].
      apply Forall_cons in H2 as [_ H2]. by apply Forall_app.
Qed.

(** C10: every sequence of [add_course], [update_course] and
    [delete_course] calls from the initial state leaves the course ids
    pairwise distinct and below [next_id]; [update_course] keeps the id
    of every course of the collection. *)
Theorem ids_distinct_and_below_next_id :
  (∀ ops, ids_ok (run ops init)) ∧
  (∀ course_id u self,
     id <$> courses (update_course course_id u self).2 =
     id <$> courses self).
Proof.
  split.
  - intros ops. unfold run. generalize ids_ok_init. generalize init.
    induction ops as [|o ops IH]; intros s Hs; simpl; [done|].
    apply IH. by apply ids_ok_step.
  - intros course_id u self. apply update_course_ids.
Qed.

End CourseFacts.

(** ** The gateway *)

Module GatewayFacts.
Import Gateway.

Section WithEnv.
Context `{Env}.

Lemma dict_get_None {V} (k : string) (d : list (string * V)) :
  dict_get k d = None ↔ k ∉ dict_keys d.
Proof.
  unfold dict_keys. induction d as [|[k' v] d IH]; simpl.
  - split; [intros _; apply not_elem_of_nil | done].
  - rewrite not_elem_of_cons. case_decide; subst.
    + split; [done | tauto].
    + rewrite IH. split; [auto | tauto].
Qed.

(** C2: a service name outside the registry makes [forward_request]
    raise the 404 error [SERVICE_NOT_FOUND], whatever the path and the
    method; the error lists the registered names, and no outbound call
    has been issued. *)
Theorem forward_unknown_service
    (service path method : string) (kwargs : Kwargs) (w : World) :
  service ∉ dict_keys SERVICES →
  forward_request service path method kwargs w =
    (Raise (HTTPException 404
       (JObj [("error", JStr "SERVICE_NOT_FOUND");
              ("message",
               JStr ("Service '" +:+ service +:+ "' does not exist"));
              ("available_services",
               JArr [JStr "student"; JStr "course"]);
              ("timestamp", JStr (isoformat (now_us w)))])),
     {| now_us := now_us w;
        calls := calls w;
        log := log w ++
               [mkLog WARNING
                  ("Unknown service requested: " +:+ service)] |}).
Proof.
  intros Hnot. apply dict_get_None in Hnot.
  unfold forward_request. rewrite Hnot. run. reflexivity.
Qed.

Lemma verb_of_None (method : string) :
  verb_of method = None ↔ method ∉ ["GET"; "POST"; "PUT"; "DELETE"].
Proof.
  unfold verb_of. rewrite !not_elem_of_cons.
  repeat case_decide; subst; split; try done; try tauto.
  intros _. split_and!; try done. apply not_elem_of_nil.
Qed.

Lemma dispatch_verb (method url : string) (kwargs : Kwargs) (v : verb) :
  verb_of method = Some v →
  dispatch method url kwargs = client_request v url kwargs.
Proof.
  unfold verb_of, dispatch. repeat case_decide; congruence.
Qed.

Lemma dispatch_unsupported (method url : string) (kwargs : Kwargs) w :
  verb_of method = None →
  dispatch method url kwargs w =
    (Raise (HTTPException 405
       (error_detail "METHOD_NOT_ALLOWED"
          ("HTTP method '" +:+ method +:+ "' is not supported") []
          (now_us w))), w).
Proof.
  unfold verb_of, dispatch. repeat case_decide; try congruence. done.
Qed.

(** The world once an outbound call has been issued and answered. *)
Lemma client_request_run (v : verb) (url : string) (kwargs : Kwargs) w :
  client_request v url kwargs w =
    (match (transport (mkCall v url kwargs)).1 with
     | Responded response => Return response
     | Failed e => Raise e
     end,
     {| now_us := now_us w + (transport (mkCall v url kwargs)).2;
        calls := calls w ++ [mkCall v url kwargs];
        log := log w |}).
Proof.
  unfold client_request. run.
  by destruct (transport (mkCall v url kwargs)).1.
Qed.

(** C4: for a registered service, a method other than GET, POST, PUT
    and DELETE makes [forward_request] raise the 405 error
    [METHOD_NOT_ALLOWED], and the list of outbound calls is as it was. *)
Theorem forward_method_not_allowed
    (service base path method : string) (kwargs : Kwargs) (w : World) :
  dict_get service SERVICES = Some base →
  method ∉ ["GET"; "POST"; "PUT"; "DELETE"] →
  forward_request service path method kwargs w =
    (Raise (HTTPException 405
       (JObj [("error", JStr "METHOD_NOT_ALLOWED");
              ("message",
               JStr ("HTTP method '" +:+ method +:+
                     "' is not supported"));
              ("timestamp", JStr (isoformat (now_us w)))])),
     {| now_us := now_us w;
        calls := calls w;
        log := log w ++
               [mkLog INFO ("FORWARDING | " +:+ method +:+ " → " +:+
                            base +:+ path)] |}).
Proof.
  intros Hbase Hmethod. apply verb_of_None in Hmethod.
  unfold forward_request. rewrite Hbase. run.
  rewrite dispatch_unsupported by done. reflexivity.
Qed.

(** C1: for a registered service, a backend response with status 500 or
    above makes [forward_request] raise the 502 error [SERVICE_ERROR];
    the error is built from the service name and the clock only, so
    neither the backend's status nor its body reaches the caller. *)
Theorem forward_backend_5xx
    (service base path method : string) (v : verb) (kwargs : Kwargs)
    (w : World) (response : HttpxResponse) :
  dict_get service SERVICES = Some base →
  verb_of method = Some v →
  (transport (mkCall v (base +:+ path) kwargs)).1 = Responded response →
  500 ≤ hr_status_code response →
  let w' := after_call base path method v kwargs w in
  forward_request service path method kwargs w =
    (Raise (HTTPException 502
       (JObj [("error", JStr "SERVICE_ERROR");
              ("message",
               JStr ("The " +:+ service +:+
                     " service encountered an internal error"));
              ("timestamp", JStr (isoformat (now_us w')))])),
     w').
Proof.
  intros Hbase Hverb Hnet Hstatus.
  unfold forward_request. rewrite Hbase. run.
  rewrite (dispatch_verb _ _ _ _ Hverb), client_request_run, Hnet.
  simpl. repeat case_decide; try lia. reflexivity.
Qed.

(** A response with a status that is passed through: the body is parsed
    (or taken as null when empty) and the response is built from it; what
    either step raises is caught by no [except] clause. *)
Lemma forward_pass_through_run
    (service base path method : string) (v : verb) (kwargs : Kwargs)
    (w : World) (response : HttpxResponse) :
  dict_get service SERVICES = Some base →
  verb_of method = Some v →
  (transport (mkCall v (base +:+ path) kwargs)).1 = Responded response →
  hr_status_code response ≠ 404 →
  hr_status_code response ≠ 422 →
  hr_status_code response < 500 →
  forward_request service path method kwargs w =
    (content ← json_if_text response;
     JSONResponse content (hr_status_code response))
      (after_call base path method v kwargs w).
Proof.
  intros Hbase Hverb Hnet H404 H422 H500.
  unfold forward_request. rewrite Hbase. run.
  rewrite (dispatch_verb _ _ _ _ Hverb), client_request_run, Hnet.
  simpl. repeat case_decide; try lia. unfold after_call. simpl.
  destruct (json_if_text response _) as [[content|e] w1] eqn:Hbody.
  - unfold JSONResponse. destruct (json_dumps content); reflexivity.
  - revert Hbody. unfold json_if_text, response_json. run.
    case_decide; [done|].
    destruct (json_loads (hr_text response)); [done|]. by intros [= <- <-].
Qed.

(** C5, as amended: for a registered service, a backend response whose
    status is not 404, not 422 and below 500, and whose body is empty or
    is JSON that the gateway can render again, is passed through: the
    response of [forward_request] has the backend's status code, and for
    content the JSON value of the backend's body, or null when the body is
    empty. *)
Theorem forward_pass_through
    (service base path method : string) (v : verb) (kwargs : Kwargs)
    (w : World) (response : HttpxResponse) :
  dict_get service SERVICES = Some base →
  verb_of method = Some v →
  (transport (mkCall v (base +:+ path) kwargs)).1 = Responded response →
  hr_status_code response ≠ 404 →
  hr_status_code response ≠ 422 →
  hr_status_code response < 500 →
  let w' := after_call base path method v kwargs w in
  (∀ body rendered,
     hr_text response ≠ "" →
     json_loads (hr_text response) = Some body →
     json_dumps body = Some rendered →
     ∃ r, forward_request service path method kwargs w = (Return r, w') ∧
          status_code r = hr_status_code response ∧
          content r = body) ∧
  (hr_text response = "" →
     ∃ r, forward_request service path method kwargs w = (Return r, w') ∧
          status_code r = hr_status_code response ∧
          content r = JNull).
Proof.
  intros Hbase Hverb Hnet H404 H422 H500 w'. subst w'.
  rewrite (forward_pass_through_run _ _ _ _ _ _ _ _
             Hbase Hverb Hnet H404 H422 H500).
  unfold json_if_text, response_json, JSONResponse. split.
  - intros body rendered Hne Hbody Hrender. run.
    rewrite decide_False, Hbody by done. run. rewrite Hrender.
    by eexists.
  - intros Hempty. run. rewrite decide_True by done. run.
    rewrite json_dumps_null. by eexists.
Qed.

(** A body that is neither empty nor JSON: [response.json()] raises, and
    no [except] clause of [forward_request] catches it. *)
Lemma forward_body_not_json
    (service base path method : string) (v : verb) (kwargs : Kwargs)
    (w : World) (response : HttpxResponse) :
  dict_get service SERVICES = Some base →
  verb_of method = Some v →
  (transport (mkCall v (base +:+ path) kwargs)).1 = Responded response →
  hr_status_code response ≠ 404 →
  hr_status_code response ≠ 422 →
  hr_status_code response < 500 →
  hr_text response ≠ "" →
  json_loads (hr_text response) = None →
  forward_request service path method kwargs w =
    (Raise (ValueError (json_error (hr_text response))),
     after_call base path method v kwargs w).
Proof.
  intros Hbase Hverb Hnet H404 H422 H500 Hne Hbody.
  rewrite (forward_pass_through_run _ _ _ _ _ _ _ _
             Hbase Hverb Hnet H404 H422 H500).
  unfold json_if_text, response_json. run.
  by rewrite decide_False, Hbody.
Qed.

(** A JSON body that cannot be rendered again (a number that is not
    finite): building the response raises, and no [except] clause of
    [forward_request] catches it. *)
Lemma forward_body_not_rendered
    (service base path method : string) (v : verb) (kwargs : Kwargs)
    (w : World) (response : HttpxResponse) (body : json) :
  dict_get service SERVICES = Some base →
  verb_of method = Some v →
  (transport (mkCall v (base +:+ path) kwargs)).1 = Responded response →
  hr_status_code response ≠ 404 →
  hr_status_code response ≠ 422 →
  hr_status_code response < 500 →
  hr_text response ≠ "" →
  json_loads (hr_text response) = Some body →
  json_dumps body = None →
  forward_request service path method kwargs w =
    (Raise (ValueError (render_error body)),
     after_call base path method v kwargs w).
Proof.
  intros Hbase Hverb Hnet H404 H422 H500 Hne Hbody Hrender.
  rewrite (forward_pass_through_run _ _ _ _ _ _ _ _
             Hbase Hverb Hnet H404 H422 H500).
  unfold json_if_text, response_json, JSONResponse. run.
  rewrite decide_False, Hbody by done. run. by rewrite Hrender.
Qed.

Lemma timeout_is_not_connect (cls : httpx_class) :
  ¬ (is_ConnectError cls = true ∧ is_TimeoutException cls = true).
Proof. by destruct cls; intros []. Qed.

(** C6: for a registered service, a transport fault of the outbound call
    falls in exactly one of three classes.  A connection failure gives
    the 503 error [SERVICE_UNAVAILABLE] with the base address of the
    service; a timeout gives the 504 error [GATEWAY_TIMEOUT]; every
    other fault gives the 503 error [REQUEST_FAILED] whose message ends
    with the description of the fault.  No fault is both a connection
    failure and a timeout. *)
Theorem forward_transport_failure
    (service base path method : string) (v : verb) (kwargs : Kwargs)
    (w : World) (cls : httpx_class) (description : string) :
  dict_get service SERVICES = Some base →
  verb_of method = Some v →
  (transport (mkCall v (base +:+ path) kwargs)).1 =
    Failed (HttpxRequestError cls description) →
  let w' := after_call base path method v kwargs w in
  let raised := (forward_request service path method kwargs w).1 in
  ¬ (is_ConnectError cls = true ∧ is_TimeoutException cls = true) ∧
  (is_ConnectError cls = true →
     raised = Raise (HTTPException 503
       (JObj [("error", JStr "SERVICE_UNAVAILABLE");
              ("message",
               JStr ("Cannot connect to " +:+ service +:+
                     " service. Make sure it is running."));
              ("service_url", JStr base);
              ("timestamp", JStr (isoformat (now_us w')))]))) ∧
  (is_TimeoutException cls = true →
     raised = Raise (HTTPException 504
       (JObj [("error", JStr "GATEWAY_TIMEOUT");
              ("message",
               JStr ("The " +:+ service +:+
                     " service took too long to respond"));
              ("timestamp", JStr (isoformat (now_us w')))]))) ∧
  (is_ConnectError cls = false → is_TimeoutException cls = false →
     raised = Raise (HTTPException 503
       (JObj [("error", JStr "REQUEST_FAILED");
              ("message",
               JStr ("Failed to reach " +:+ service +:+ " service: " +:+
                     description));
              ("timestamp", JStr (isoformat (now_us w')))]))).
Proof.
  intros Hbase Hverb Hnet w' raised. subst raised w'.
  unfold forward_request. rewrite Hbase. run.
  rewrite (dispatch_verb _ _ _ _ Hverb), client_request_run, Hnet.
  simpl. split; [apply timeout_is_not_connect|].
  destruct (is_ConnectError cls) eqn:Hc;
    destruct (is_TimeoutException cls) eqn:Ht; run;
    split_and!; intros; try discriminate; try reflexivity.
  by destruct cls.
Qed.

(** *** Partial updates *)

Lemma exclude_unset_get (fs : gset string) (d : list (string * pyval))
    (k : string) :
  dict_get k (prod_map Datatypes.id to_json <$> exclude_unset fs d) =
  if decide (k ∈ fs) then to_json <$> dict_get k d else None.
Proof.
  unfold exclude_unset. induction d as [|[k' v] d IH]; simpl.
  - by case_decide.
  - rewrite filter_cons. simpl.
    destruct (decide (k' ∈ fs)) as [Hin|Hnin]; simpl.
    + destruct (decide (k' = k)) as [->|Hne].
      * rewrite decide_True by done. reflexivity.
      * exact IH.
    + rewrite IH. destruct (decide (k' = k)) as [->|Hne]; [|done].
      by destruct (decide (k ∈ fs)).
Qed.

Lemma exclude_unset_keys (fs : gset string) (d : list (string * pyval)) :
  dict_keys (prod_map Datatypes.id to_json <$> exclude_unset fs d) =
  filter (λ k, k ∈ fs) (dict_keys d).
Proof.
  unfold exclude_unset, dict_keys. induction d as [|[k v] d IH]; [done|].
  rewrite fmap_cons, !filter_cons. simpl.
  destruct (decide (k ∈ fs)); simpl; [f_equal|]; exact IH.
Qed.

Lemma exclude_unset_partial (fs : gset string)
    (d : list (string * pyval)) :
  NoDup (dict_keys d) →
  partial_body fs d
    (prod_map Datatypes.id to_json <$> exclude_unset fs d).
Proof.
  intros Hnd. unfold partial_body. rewrite exclude_unset_keys.
  split_and!.
  - by apply NoDup_filter.
  - intros k. by rewrite list_elem_of_filter.
  - intros k Hk. by rewrite exclude_unset_get, decide_True.
  - intros k Hk. by rewrite exclude_unset_get, decide_False.
Qed.

(** A supported method on a registered service issues exactly one
    outbound call, whatever comes back. *)
Lemma forward_request_calls
    (service base path method : string) (v : verb) (kwargs : Kwargs)
    (w : World) :
  dict_get service SERVICES = Some base →
  verb_of method = Some v →
  calls (forward_request service path method kwargs w).2 =
  calls w ++ [mkCall v (base +:+ path) kwargs].
Proof.
  intros Hbase Hverb. unfold forward_request. rewrite Hbase. run.
  rewrite (dispatch_verb _ _ _ _ Hverb), client_request_run. simpl.
  destruct (transport _).1 as [response|e]; simpl.
  - unfold json_if_text, response_json, JSONResponse.
    repeat case_decide; run; try done;
      repeat match goal with
             | |- context [json_loads ?x] => destruct (json_loads x); run
             | |- context [json_dumps ?x] => destruct (json_dumps x); run
             end; done.
  - destruct e as [| cls m | | | |]; try done. run.
    destruct (is_ConnectError cls); [done|].
    by destruct (is_TimeoutException cls).
Qed.

(** C7: the one outbound call of an update handler carries as JSON body
    exactly the fields that the inbound model has in its set of
    explicitly given fields, in declaration order, each with the model's
    value; a field left unset is not a member of the body.  The fields
    are those of the source's models: [name], [age], [email], [course]
    for a student; [title], [description], [duration_weeks],
    [instructor], [max_students] for a course. *)
Theorem update_bodies_partial :
  (∀ student_id student current_user w, ∃ body,
     calls (update_student student_id student current_user w).2 =
       calls w ++
       [mkCall PUT
          ("http://localhost:8001/api/students/" +:+ pretty student_id)
          {| kw_json := Some (JObj body) |}] ∧
     dict_keys body =
       filter (λ k, k ∈ su_fields_set student)
         ["name"; "age"; "email"; "course"] ∧
     partial_body (su_fields_set student)
       [("name", opt_str (su_name student));
        ("age", opt_int (su_age student));
        ("email", opt_str (su_email student));
        ("course", opt_str (su_course student))]
       body) ∧
  (∀ course_id course current_user w, ∃ body,
     calls (update_course course_id course current_user w).2 =
       calls w ++
       [mkCall PUT
          ("http://localhost:8002/api/courses/" +:+ pretty course_id)
          {| kw_json := Some (JObj body) |}] ∧
     dict_keys body =
       filter (λ k, k ∈ cu_fields_set course)
         ["title"; "description"; "duration_weeks"; "instructor";
          "max_students"] ∧
     partial_body (cu_fields_set course)
       [("title", opt_str (cu_title course));
        ("description", opt_str (cu_description course));
        ("duration_weeks", opt_int (cu_duration_weeks course));
        ("instructor", opt_str (cu_instructor course));
        ("max_students", opt_int (cu_max_students course))]
       body).
Proof.
  split.
  - intros student_id student current_user w. eexists. split_and!.
    + unfold update_student.
      by rewrite (forward_request_calls "student"
                    "http://localhost:8001" _ "PUT" PUT).
    + apply exclude_unset_keys.
    + apply (exclude_unset_partial _ (StudentUpdate_dict student)).
      apply (bool_decide_unpack _). reflexivity.
  - intros course_id course current_user w. eexists. split_and!.
    + unfold update_course.
      by rewrite (forward_request_calls "course"
                    "http://localhost:8002" _ "PUT" PUT).
    + apply exclude_unset_keys.
    + apply (exclude_unset_partial _ (CourseUpdate_dict course)).
      apply (bool_decide_unpack _). reflexivity.
Qed.

(** *** The logging middleware *)

Lemma headers_get_set (key value : string)
    (hs : list (string * string)) :
  dict_get key (headers_set key value hs) = Some value.
Proof.
  induction hs as [|[k v] hs IH]; simpl.
  - by destruct (decide (key = key)).
  - destruct (decide (k = key)) as [->|Hne]; simpl.
    + by destruct (decide (key = key)).
    + by destruct (decide (k = key)).
Qed.

Lemma headers_get_setitem (key value : string) (r : Response) :
  headers_get key (headers_setitem key value r) = Some value.
Proof. apply headers_get_set. Qed.

(** What [log_requests] does once the request has a client address. *)
Lemma log_requests_run (request : Request) (host : string)
    (call_next : Request → M Response) (w : World) :
  req_client request = Some host →
  log_requests request call_next w =
    match call_next request (entered request host w) with
    | (Return response, w1) =>
        let t := elapsed_ms (now_us w) (now_us w1) in
        (Return (headers_setitem "X-Process-Time" (float_str t +:+ "ms")
                   response),
         {| now_us := now_us w1; calls := calls w1;
            log := log w1 ++
              [mkLog INFO
                 ("RESPONSE | " +:+ req_method request +:+ " " +:+
                  req_path request +:+ " | Status: " +:+
                  pretty (status_code response) +:+ " | Time: " +:+
                  float_str t +:+ "ms")] |})
    | (Raise e, w1) =>
        (Raise e,
         if is_Exception e then
           {| now_us := now_us w1; calls := calls w1;
              log := log w1 ++
                [mkLog ERROR
                   ("ERROR    | " +:+ req_method request +:+ " " +:+
                    req_path request +:+ " | Error: " +:+ exn_str e +:+
                    " | Time: " +:+
                    float_str (elapsed_ms (now_us w) (now_us w1)) +:+
                    "ms")] |}
         else w1)
    end.
Proof.
  intros Hhost.
  unfold log_requests, time_time, process_time_since, client_host,
    time_time, entered, elapsed_ms.
  rewrite Hhost. run.
  destruct (call_next request _) as [[response|e] w1]; [done|].
  by destruct (is_Exception e).
Qed.

(** A request without a client address: the request line cannot be
    built, and the rest of the pipeline is never entered. *)
Lemma log_requests_no_client (request : Request)
    (call_next : Request → M Response) (w : World) :
  req_client request = None →
  log_requests request call_next w =
    (Raise (AttributeError "'NoneType' object has no attribute 'host'"),
     w).
Proof.
  intros Hnone. unfold log_requests, time_time, client_host.
  rewrite Hnone. run. by destruct w.
Qed.

(** C8: every response that [log_requests] returns is the response of
    the rest of the pipeline with the header [X-Process-Time] set to the
    elapsed milliseconds followed by [ms], and the middleware returns
    one whenever the rest of the pipeline does; when the rest of the
    pipeline raises an exception, [log_requests] raises that same
    exception. *)
Theorem log_requests_header_and_reraise
    (request : Request) (call_next : Request → M Response) (w : World) :
  (∀ r w2,
     log_requests request call_next w = (Return r, w2) →
     ∃ host response w1,
       req_client request = Some host ∧
       call_next request (entered request host w) =
         (Return response, w1) ∧
       status_code r = status_code response ∧
       content r = content response ∧
       headers_get "X-Process-Time" r =
         Some (float_str (elapsed_ms (now_us w) (now_us w1)) +:+ "ms")) ∧
  (∀ host response w1,
     req_client request = Some host →
     call_next request (entered request host w) = (Return response, w1) →
     ∃ r w2, log_requests request call_next w = (Return r, w2)) ∧
  (∀ host e w1,
     req_client request = Some host →
     call_next request (entered request host w) = (Raise e, w1) →
     ∃ w2, log_requests request call_next w = (Raise e, w2)).
Proof.
  split_and!.
  - intros r w2.
    destruct (req_client request) as [host|] eqn:Hhost.
    + rewrite (log_requests_run _ _ _ _ Hhost).
      destruct (call_next request _) as [[response|e] w1] eqn:Hnext;
        [|done].
      intros [= <- _]. exists host, response, w1.
      split_and!; [done|done|done|done|apply headers_get_setitem].
    + by rewrite log_requests_no_client.
  - intros host response w1 Hhost Hnext.
    rewrite (log_requests_run _ _ _ _ Hhost), Hnext. by do 2 eexists.
  - intros host e w1 Hhost Hnext.
    rewrite (log_requests_run _ _ _ _ Hhost), Hnext. by eexists.
Qed.

(** *** Tokens *)

(** What [create_access_token] returns for a login: the subject, and
    the expiry in whole seconds, thirty minutes after the instant of
    issue. *)
Lemma create_access_token_sub (subject : string) (w : World) :
  let exp := timegm (now_us w + 30 * 60 * 1000000) in
  let payload := JObj [("sub", JStr subject); ("exp", JInt exp)] in
  create_access_token [("sub", CJson (JStr subject))] w =
    (Return (Compact "HS256" payload (hmac SECRET_KEY "HS256" payload)),
     w).
Proof. reflexivity. Qed.

(** The claim checks on the payload of an issued token: it has no [iat],
    [nbf], [aud] or [jti], its [sub] is a string, and its [exp] is an
    integer, so only the expiry decides. *)
Lemma validate_claims_issued (subject : string) (exp now : Z) :
  validate_claims [("sub", JStr subject); ("exp", JInt exp)] now =
  if decide (exp * 1000000 ≤ now) then Rejected ExpiredSignatureError
  else Passed.
Proof.
  unfold validate_claims, check_time_claim, check_str_claim. simpl.
  by case_decide.
Qed.

(** C3: for a non-empty subject, [create_access_token] issues a token whose
    expiry [exp] is the whole second thirty minutes after the instant of
    issue; [verify_token] at an instant before [exp] returns the subject,
    and at [exp] or any later instant it raises the 401 error
    [TOKEN_EXPIRED]. *)
Theorem issue_then_verify (subject : string) (w : World) :
  subject ≠ "" →
  let exp := timegm (now_us w + ACCESS_TOKEN_EXPIRE_MINUTES * 60 * 1000000) in
  let payload := JObj [("sub", JStr subject); ("exp", JInt exp)] in
  let tok := Compact ALGORITHM payload (hmac SECRET_KEY ALGORITHM payload) in
  create_access_token [("sub", CJson (JStr subject))] w = (Return tok, w) ∧
  ∀ sch w',
    (now_us w' < exp * 1000000 →
       verify_token (mkCredentials sch tok) w' =
         (Return (JStr subject), w')) ∧
    (exp * 1000000 ≤ now_us w' →
       verify_token (mkCredentials sch tok) w' =
         (Raise (HTTPException 401
            (JObj [("error", JStr "TOKEN_EXPIRED");
                   ("message",
                    JStr "Token has expired. Please login again.");
                   ("timestamp", JStr (isoformat (now_us w')))])),
          w')).
Proof.
  intros _ exp payload tok. split; [apply create_access_token_sub|].
  intros sch w'. subst tok payload.
  unfold verify_token, jwt_decode. run.
  rewrite (decide_True (P := _ = _)) by reflexivity.
  rewrite validate_claims_issued.
  split; intros Hnow.
  - rewrite decide_False by lia. reflexivity.
  - rewrite decide_True by lia. reflexivity.
Qed.

End WithEnv.

(** *** The theorems on concrete inputs *)

Lemma forward_unknown_service_witness :
  ("billing" ∉ dict_keys SERVICES) ∧
  @forward_request (sample_env net_200) "billing" "/api/invoices" "GET"
     no_kwargs sample_world =
    (Raise (HTTPException 404
       (JObj [("error", JStr "SERVICE_NOT_FOUND");
              ("message", JStr "Service 'billing' does not exist");
              ("available_services", JArr [JStr "student"; JStr "course"]);
              ("timestamp", JStr "0")])),
     {| now_us := 0; calls := [];
        log := [mkLog WARNING "Unknown service requested: billing"] |}).
Proof.
  assert ("billing" ∉ dict_keys SERVICES) as Hnot.
  { apply (bool_decide_unpack _). reflexivity. }
  split; [exact Hnot|].
  exact (@forward_unknown_service (sample_env net_200) "billing"
           "/api/invoices" "GET" no_kwargs sample_world Hnot).
Defined.

Lemma forward_method_not_allowed_witness :
  ("PATCH" ∉ ["GET"; "POST"; "PUT"; "DELETE"]) ∧
  @forward_request (sample_env net_200) "course" "/api/courses/1" "PATCH"
     no_kwargs sample_world =
    (Raise (HTTPException 405
       (JObj [("error", JStr "METHOD_NOT_ALLOWED");
              ("message", JStr "HTTP method 'PATCH' is not supported");
              ("timestamp", JStr "0")])),
     {| now_us := 0; calls := [];
        log := [mkLog INFO
                  "FORWARDING | PATCH → http://localhost:8002/api/courses/1"]
     |}).
Proof.
  assert ("PATCH" ∉ ["GET"; "POST"; "PUT"; "DELETE"]) as Hnot.
  { apply (bool_decide_unpack _). reflexivity. }
  split; [exact Hnot|].
  exact (@forward_method_not_allowed (sample_env net_200) "course"
           "http://localhost:8002" "/api/courses/1" "PATCH" no_kwargs
           sample_world eq_refl Hnot).
Defined.

Lemma forward_backend_5xx_witness :
  @forward_request (sample_env net_500) "course" "/api/courses" "GET"
     no_kwargs sample_world =
    (Raise (HTTPException 502
       (JObj [("error", JStr "SERVICE_ERROR");
              ("message",
               JStr "The course service encountered an internal error");
              ("timestamp", JStr "1500")])),
     {| now_us := 1500;
        calls := [mkCall GET "http://localhost:8002/api/courses" no_kwargs];
        log := [mkLog INFO
                  "FORWARDING | GET → http://localhost:8002/api/courses"]
     |}).
Proof.
  apply (@forward_backend_5xx (sample_env net_500) "course"
           "http://localhost:8002" "/api/courses" "GET" GET no_kwargs
           sample_world (mkHttpxResponse 500 "Internal Server Error"));
    [reflexivity | reflexivity | reflexivity | simpl; lia].
Defined.

Lemma forward_pass_through_witness :
  (∃ r, @forward_request (sample_env net_200) "course" "/api/courses" "GET"
          no_kwargs sample_world =
          (Return r,
           {| now_us := 1500;
              calls :=
                [mkCall GET "http://localhost:8002/api/courses" no_kwargs];
              log :=
                [mkLog INFO
                   "FORWARDING | GET → http://localhost:8002/api/courses"]
           |}) ∧
        status_code r = 200 ∧ content r = JArr []) ∧
  (∃ r, @forward_request (sample_env net_204) "student" "/api/students/3"
          "DELETE" no_kwargs sample_world =
          (Return r,
           {| now_us := 1500;
              calls :=
                [mkCall DELETE "http://localhost:8001/api/students/3"
                   no_kwargs];
              log :=
                [mkLog INFO
                 "FORWARDING | DELETE → http://localhost:8001/api/students/3"]
           |}) ∧
        status_code r = 204 ∧ content r = JNull).
Proof.
  split.
  - refine (proj1 (@forward_pass_through (sample_env net_200) "course"
                     "http://localhost:8002" "/api/courses" "GET" GET
                     no_kwargs sample_world (mkHttpxResponse 200 "[]")
                     eq_refl eq_refl eq_refl _ _ _) (JArr []) "[]" _
              eq_refl eq_refl);
      simpl; first [lia | discriminate].
  - refine (proj2 (@forward_pass_through (sample_env net_204) "student"
                     "http://localhost:8001" "/api/students/3" "DELETE"
                     DELETE no_kwargs sample_world (mkHttpxResponse 204 "")
                     eq_refl eq_refl eq_refl _ _ _) eq_refl);
      simpl; lia.
Defined.

(** The claim without the amendment fails on a backend that answers 200
    with a body that is not JSON, and on one that answers 200 with the
    JSON text [[1e999]], which parses to an infinity and cannot be
    rendered: [forward_request] raises and returns no response. *)
Lemma forward_pass_through_counterexample :
  @forward_request (sample_env net_200_html) "course" "/api/courses" "GET"
    no_kwargs sample_world =
    (Raise (ValueError "Expecting value: line 1 column 1 (char 0)"),
     {| now_us := 1500;
        calls := [mkCall GET "http://localhost:8002/api/courses" no_kwargs];
        log :=
          [mkLog INFO
             "FORWARDING | GET → http://localhost:8002/api/courses"] |}) ∧
  @forward_request (sample_env net_200_inf) "course" "/api/courses" "GET"
    no_kwargs sample_world =
    (Raise (ValueError "Out of range float values are not JSON compliant"),
     {| now_us := 1500;
        calls := [mkCall GET "http://localhost:8002/api/courses" no_kwargs];
        log :=
          [mkLog INFO
             "FORWARDING | GET → http://localhost:8002/api/courses"] |}) ∧
  ¬ (∃ r w',
       @forward_request (sample_env net_200_html) "course" "/api/courses"
         "GET" no_kwargs sample_world = (Return r, w')) ∧
  ¬ (∃ r w',
       @forward_request (sample_env net_200_inf) "course" "/api/courses"
         "GET" no_kwargs sample_world = (Return r, w')).
Proof.
  split_and!; [reflexivity | reflexivity | |]; intros (r & w' & Hrun);
    discriminate Hrun.
Qed.

Lemma update_bodies_partial_witness :
  ∃ body,
    calls (@update_student (sample_env net_200) 7
             (mkStudentUpdate None (Some 3) None None {["age"]}) JNull
             sample_world).2 =
      [mkCall PUT "http://localhost:8001/api/students/7"
         {| kw_json := Some (JObj body) |}] ∧
    body = [("age", JInt 3)].
Proof.
  destruct (proj1 (@update_bodies_partial (sample_env net_200)) 7
              (mkStudentUpdate None (Some 3) None None {["age"]}) JNull
              sample_world)
    as (body & Hcalls & Hkeys & _ & _ & Hget & _).
  exists body. split; [exact Hcalls|].
  assert (filter (λ k : string, k ∈ ({["age"]} : gset string))
            ["name"; "age"; "email"; "course"] = ["age"]) as Hfilter
    by (by vm_compute).
  simpl in Hkeys. rewrite Hfilter in Hkeys.
  assert ("age" ∈ ({["age"]} : gset string)) as Hage
    by (by apply elem_of_singleton).
  specialize (Hget "age" Hage).
  destruct body as [|[k v] [|kv body]]; try discriminate Hkeys.
  injection Hkeys as ->. simpl in Hget. by injection Hget as ->.
Defined.

Lemma forward_transport_failure_witness :
  (@forward_request (sample_env net_refused) "student" "/api/students"
     "GET" no_kwargs sample_world).1 =
    Raise (HTTPException 503
      (JObj [("error", JStr "SERVICE_UNAVAILABLE");
             ("message",
              JStr "Cannot connect to student service. Make sure it is running.");
             ("service_url", JStr "http://localhost:8001");
             ("timestamp", JStr "20")])) ∧
  (@forward_request (sample_env net_slow) "student" "/api/students"
     "GET" no_kwargs sample_world).1 =
    Raise (HTTPException 504
      (JObj [("error", JStr "GATEWAY_TIMEOUT");
             ("message",
              JStr "The student service took too long to respond");
             ("timestamp", JStr "10000000")])) ∧
  (@forward_request (sample_env net_broken) "student" "/api/students"
     "GET" no_kwargs sample_world).1 =
    Raise (HTTPException 503
      (JObj [("error", JStr "REQUEST_FAILED");
             ("message",
              JStr "Failed to reach student service: Server disconnected");
             ("timestamp", JStr "300")])).
Proof.
  split_and!.
  - exact (proj1 (proj2
      (@forward_transport_failure (sample_env net_refused) "student"
         "http://localhost:8001" "/api/students" "GET" GET no_kwargs
         sample_world ConnectError "All connection attempts failed"
         eq_refl eq_refl eq_refl)) eq_refl).
  - exact (proj1 (proj2 (proj2
      (@forward_transport_failure (sample_env net_slow) "student"
         "http://localhost:8001" "/api/students" "GET" GET no_kwargs
         sample_world ReadTimeout "timed out"
         eq_refl eq_refl eq_refl))) eq_refl).
  - exact (proj2 (proj2 (proj2
      (@forward_transport_failure (sample_env net_broken) "student"
         "http://localhost:8001" "/api/students" "GET" GET no_kwargs
         sample_world RemoteProtocolError "Server disconnected"
         eq_refl eq_refl eq_refl))) eq_refl eq_refl).
Defined.

Lemma issue_then_verify_witness :
  "admin" ≠ "" ∧
  let tok :=
    Compact "HS256" (JObj [("sub", JStr "admin"); ("exp", JInt 1800)])
      "your-secret-key-change-in-productionHS256" in
  @create_access_token (sample_env net_200)
     [("sub", CJson (JStr "admin"))] sample_world =
    (Return tok, sample_world) ∧
  @verify_token (sample_env net_200) (mkCredentials "Bearer" tok)
     {| now_us := 1799999999; calls := []; log := [] |} =
    (Return (JStr "admin"),
     {| now_us := 1799999999; calls := []; log := [] |}) ∧
  @verify_token (sample_env net_200) (mkCredentials "Bearer" tok)
     {| now_us := 1800000000; calls := []; log := [] |} =
    (Raise (HTTPException 401
       (JObj [("error", JStr "TOKEN_EXPIRED");
              ("message", JStr "Token has expired. Please login again.");
              ("timestamp", JStr "1800000000")])),
     {| now_us := 1800000000; calls := []; log := [] |}).
Proof.
  assert ("admin" ≠ "") as Hne by discriminate.
  split; [exact Hne|].
  pose proof (@issue_then_verify (sample_env net_200) "admin" sample_world
                Hne) as [Hcreate Hverify].
  split; [exact Hcreate|]. split.
  - apply (proj1 (Hverify "Bearer"
                    {| now_us := 1799999999; calls := []; log := [] |})).
    by vm_compute.
  - apply (proj2 (Hverify "Bearer"
                    {| now_us := 1800000000; calls := []; log := [] |})).
    by vm_compute.
Defined.

Lemma log_requests_witness :
  (∃ r w2,
     @log_requests (sample_env net_200) sample_request
        (λ _, @get_all_courses (sample_env net_200) JNull) sample_world =
       (Return r, w2)) ∧
  (∃ w2,
     @log_requests (sample_env net_200) sample_request
        (λ _, raise (OtherException "RuntimeError" "boom")) sample_world =
       (Raise (OtherException "RuntimeError" "boom"), w2)).
Proof.
  split.
  - exact (proj1 (proj2
      (@log_requests_header_and_reraise (sample_env net_200) sample_request
         (λ _, @get_all_courses (sample_env net_200) JNull) sample_world))
      "127.0.0.1" _ _ eq_refl eq_refl).
  - exact (proj2 (proj2
      (@log_requests_header_and_reraise (sample_env net_200) sample_request
         (λ _, raise (OtherException "RuntimeError" "boom")) sample_world))
      "127.0.0.1" _ _ eq_refl eq_refl).
Defined.

End GatewayFacts.

(** ** More on the course collection *)

Module CourseMore.
Import CourseMockDataService CourseFacts.

(** The course a lookup returns, read off the head of the list. *)
Lemma lookup_cons (course_id : Z) (c : Course) (l : list Course) (n : Z) :
  get_course_by_id course_id {| courses := c :: l; next_id := n |} =
  if decide (id c = PInt course_id) then Some c
  else get_course_by_id course_id {| courses := l; next_id := n |}.
Proof.
  unfold get_course_by_id, find_course. simpl.
  destruct (decide (id c = PInt course_id)); [done|].
  by destruct (list_find _ l) as [[k x]|].
Qed.

Lemma lookup_next_id_irrelevant (course_id : Z) (l : list Course) (n m : Z) :
  get_course_by_id course_id {| courses := l; next_id := n |} =
  get_course_by_id course_id {| courses := l; next_id := m |}.
Proof. reflexivity. Qed.

Lemma lookup_app (course_id : Z) (l1 l2 : list Course) (n : Z) :
  get_course_by_id course_id {| courses := l1 ++ l2; next_id := n |} =
  match get_course_by_id course_id {| courses := l1; next_id := n |} with
  | Some c => Some c
  | None => get_course_by_id course_id {| courses := l2; next_id := n |}
  end.
Proof.
  induction l1 as [|c l1 IH]; [done|].
  rewrite <- app_comm_cons, !lookup_cons.
  by destruct (decide (id c = PInt course_id)).
Qed.

(** X1: a lookup that finds a course returns a course of the collection
    carrying the requested id, the first one in list order; it finds none
    exactly when no course of the collection carries that id. *)
Theorem get_course_by_id_spec (self : t) (course_id : Z) :
  (∀ c, get_course_by_id course_id self = Some c →
     ∃ l1 l2, courses self = l1 ++ c :: l2 ∧ id c = PInt course_id ∧
              Forall (λ c', id c' ≠ PInt course_id) l1) ∧
  (get_course_by_id course_id self = None ↔
   ∀ c, c ∈ courses self → id c ≠ PInt course_id).
Proof.
  split; [|apply get_course_by_id_None].
  intros c. unfold get_course_by_id.
  destruct (find_course course_id self) as [[i c']|] eqn:Hfind; [|done].
  intros [= ->]. unfold find_course in Hfind.
  apply list_find_split in Hfind as (l1 & l2 & Hl & Hl1 & Hc & _).
  by exists l1, l2.
Qed.

Lemma lookup_None_below (self : t) (course_id : Z) :
  Forall (λ c, ∃ z, id c = PInt z ∧ z < next_id self) (courses self) →
  next_id self ≤ course_id →
  get_course_by_id course_id self = None.
Proof.
  intros Hlt Hge. apply get_course_by_id_None. intros c Hin Hid.
  rewrite Forall_forall in Hlt. destruct (Hlt c Hin) as (z & Hz & Hzlt).
  rewrite Hz in Hid. simplify_eq. lia.
Qed.

(** X2: in a state whose ids are below [next_id], the course that
    [add_course] returns carries the id [next_id] and the fields of the
    request, a lookup of that id in the new state returns it, and
    [next_id] has grown by one. *)
Theorem add_course_then_get (course_data : CourseCreate) (self : t) :
  ids_ok self →
  let new_course := (add_course course_data self).1 in
  let self' := (add_course course_data self).2 in
  new_course =
    mkCourse (PInt (next_id self)) (PStr (cc_title course_data))
      (PStr (cc_description course_data))
      (PInt (cc_duration_weeks course_data))
      (PStr (cc_instructor course_data))
      (PInt (cc_max_students course_data)) ∧
  get_course_by_id (next_id self) self' = Some new_course ∧
  next_id self' = next_id self + 1.
Proof.
  intros [_ Hlt]. simpl. split_and!; [done| |done].
  rewrite lookup_app.
  rewrite (lookup_next_id_irrelevant _ _ _ (next_id self)).
  destruct self as [l n]. simpl in *.
  rewrite (lookup_None_below {| courses := l; next_id := n |}) by (done || lia).
  rewrite lookup_cons. by rewrite decide_True.
Qed.

Lemma add_course_then_get_witness :
  ids_ok init ∧
  get_course_by_id 4
    (add_course (mkCourseCreate "Rust" "Ownership" 6 "Dr. Lee" 15) init).2 =
  Some (mkCourse (PInt 4) (PStr "Rust") (PStr "Ownership") (PInt 6)
          (PStr "Dr. Lee") (PInt 15)).
Proof.
  split; [exact ids_ok_init|].
  exact (proj1 (proj2 (add_course_then_get
           (mkCourseCreate "Rust" "Ownership" 6 "Dr. Lee" 15) init
           ids_ok_init))).
Defined.

(** What the update loop stores, field by field. *)
Lemma setattr_items_update (c : Course) (u : CourseUpdate) :
  setattr_items c (CourseUpdate_dict_exclude_unset u) =
  (updated_course c u, true).
Proof.
  unfold CourseUpdate_dict_exclude_unset, exclude_unset, CourseUpdate_dict,
    updated_course.
  rewrite !filter_cons, filter_nil. simpl. destruct c.
  repeat (case_decide; simpl); reflexivity.
Qed.

Lemma lookup_insert_same_id (course_id : Z) (l : list Course) (i : nat)
    (c c' : Course) (n : Z) :
  list_find (λ c, id c = PInt course_id) l = Some (i, c) →
  id c' = id c →
  get_course_by_id course_id {| courses := <[i := c']> l; next_id := n |} =
  Some c'.
Proof.
  revert i. induction l as [|x l IH]; intros i Hfind Hid; [done|].
  simpl in Hfind. destruct (decide (id x = PInt course_id)) as [Hx|Hx].
  - simplify_eq. simpl. rewrite lookup_cons. rewrite decide_True; [done|].
    congruence.
  - destruct (list_find _ l) as [[k y]|] eqn:Hl; simplify_eq/=.
    rewrite lookup_cons, decide_False by done. by apply IH.
Qed.

Lemma lookup_insert_other_id (course_id j : Z) (l : list Course) (i : nat)
    (c c' : Course) (n : Z) :
  l !! i = Some c → id c = PInt course_id → id c' = id c → j ≠ course_id →
  get_course_by_id j {| courses := <[i := c']> l; next_id := n |} =
  get_course_by_id j {| courses := l; next_id := n |}.
Proof.
  revert i. induction l as [|x l IH]; intros i Hi Hc Hid Hne; [done|].
  destruct i as [|i]; simpl in *.
  - simplify_eq. rewrite !lookup_cons.
    rewrite !decide_False; [done| |]; rewrite ?Hid, Hc; congruence.
  - rewrite !lookup_cons. case_decide; [done|]. by apply IH.
Qed.

Lemma update_course_found (course_id : Z) (u : CourseUpdate) (self : t)
    (i : nat) (c : Course) :
  find_course course_id self = Some (i, c) →
  update_course course_id u self =
    (Return (Some (updated_course c u)),
     {| courses := <[i := updated_course c u]> (courses self);
        next_id := next_id self |}).
Proof.
  intros Hfind. unfold update_course.
  by rewrite Hfind, setattr_items_update.
Qed.

(** X3: [update_course] on an id that is present returns the first course
    of that id with the fields named in the update's set of given fields
    replaced (by [None] for an explicit null) and all others kept; the
    course sits at the same position, every other course is untouched, and
    a lookup of the id afterwards returns the updated course.  On an id
    that is absent it returns [None] and changes nothing. *)
Theorem update_course_spec (course_id : Z) (u : CourseUpdate) (self : t) :
  match find_course course_id self with
  | Some (i, c) =>
      update_course course_id u self =
        (Return (Some (updated_course c u)),
         {| courses := <[i := updated_course c u]> (courses self);
            next_id := next_id self |}) ∧
      get_course_by_id course_id (update_course course_id u self).2 =
        Some (updated_course c u)
  | None => update_course course_id u self = (Return None, self)
  end.
Proof.
  destruct (find_course course_id self) as [[i c]|] eqn:Hfind.
  - rewrite (update_course_found _ _ _ _ _ Hfind). simpl.
    split; [done|]. by eapply lookup_insert_same_id.
  - unfold update_course. by rewrite Hfind.
Qed.

(** X4: an update that names no field leaves the state as it is and
    returns the course unchanged. *)
Theorem update_course_nothing_set (course_id : Z) (u : CourseUpdate)
    (self : t) :
  cu_fields_set u = ∅ →
  update_course course_id u self =
    (Return (get_course_by_id course_id self), self).
Proof.
  intros Hempty. unfold get_course_by_id.
  destruct (find_course course_id self) as [[i c]|] eqn:Hfind.
  - rewrite (update_course_found _ _ _ _ _ Hfind).
    assert (updated_course c u = c) as ->.
    { unfold updated_course. rewrite Hempty. by destruct c. }
    unfold find_course in Hfind. apply list_find_Some in Hfind as (Hi & _).
    rewrite list_insert_id by done. by destruct self.
  - unfold update_course. by rewrite Hfind.
Qed.

Lemma update_course_nothing_set_witness :
  cu_fields_set (mkCourseUpdate (Some "ignored") None None None None ∅) = ∅ ∧
  update_course 2 (mkCourseUpdate (Some "ignored") None None None None ∅)
    init =
  (Return (get_course_by_id 2 init), init).
Proof.
  split; [reflexivity|].
  exact (update_course_nothing_set 2
           (mkCourseUpdate (Some "ignored") None None None None ∅) init
           eq_refl).
Defined.

Lemma lookup_remove_other (j : Z) (l1 l2 : list Course) (c : Course)
    (n : Z) :
  id c ≠ PInt j →
  get_course_by_id j {| courses := l1 ++ l2; next_id := n |} =
  get_course_by_id j {| courses := l1 ++ c :: l2; next_id := n |}.
Proof.
  intros Hc. rewrite !lookup_app, lookup_cons. by rewrite decide_False.
Qed.

(** The state after a successful delete, in terms of the split of the
    list at the first course with the id. *)
Lemma delete_course_found (course_id : Z) (self : t) (i : nat) (c : Course) :
  find_course course_id self = Some (i, c) →
  ∃ l1 l2,
    courses self = l1 ++ c :: l2 ∧ id c = PInt course_id ∧
    Forall (λ c', id c' ≠ PInt course_id) l1 ∧
    delete_course course_id self =
      (Return true, {| courses := l1 ++ l2; next_id := next_id self |}).
Proof.
  intros Hfind. pose proof Hfind as Hsplit. unfold find_course in Hsplit.
  apply list_find_split in Hsplit as (l1 & l2 & Hl & Hl1 & Hc & _).
  exists l1, l2. split_and!; try done.
  unfold delete_course, get_course_by_id. rewrite Hfind. simpl.
  rewrite Hl, list_remove_middle; [done|].
  intros Hmem. rewrite Forall_forall in Hl1. by apply (Hl1 c).
Qed.

(** X5: a lookup of one id is not affected by what happens to another id:
    adding a course (which gets [next_id]), updating another id, and
    deleting another id all leave the result of the lookup as it was. *)
Theorem lookup_unchanged_by_other_ids (j : Z) (self : t) :
  (∀ course_data, j ≠ next_id self →
     get_course_by_id j (add_course course_data self).2 =
     get_course_by_id j self) ∧
  (∀ course_id u, j ≠ course_id →
     get_course_by_id j (update_course course_id u self).2 =
     get_course_by_id j self) ∧
  (∀ course_id, j ≠ course_id →
     get_course_by_id j (delete_course course_id self).2 =
     get_course_by_id j self).
Proof.
  destruct self as [l n]. split_and!.
  - intros d Hne. simpl in *. rewrite lookup_app, lookup_cons.
    rewrite (lookup_next_id_irrelevant _ _ _ n).
    rewrite decide_False by (simpl; intros [= ?]; lia).
    by destruct (get_course_by_id j {| courses := l; next_id := n |}).
  - intros i u Hne.
    destruct (find_course i {| courses := l; next_id := n |})
      as [[k c]|] eqn:Hfind.
    + rewrite (update_course_found _ _ _ _ _ Hfind). simpl.
      unfold find_course in Hfind.
      apply list_find_Some in Hfind as (Hk & Hc & _). simpl in *.
      by eapply lookup_insert_other_id.
    + unfold update_course. by rewrite Hfind.
  - intros i Hne.
    destruct (find_course i {| courses := l; next_id := n |})
      as [[k c]|] eqn:Hfind.
    + destruct (delete_course_found _ _ _ _ Hfind)
        as (l1 & l2 & Hl & Hc & _ & ->). simpl in *. subst l.
      apply lookup_remove_other. rewrite Hc. congruence.
    + unfold delete_course, get_course_by_id. by rewrite Hfind.
Qed.

Lemma lookup_unchanged_by_other_ids_witness :
  3 ≠ 2 ∧
  get_course_by_id 3 (delete_course 2 init).2 = get_course_by_id 3 init.
Proof.
  assert (3 ≠ 2) as Hne by lia. split; [exact Hne|].
  exact (proj2 (proj2 (lookup_unchanged_by_other_ids 3 init)) 2 Hne).
Defined.

(** X6: when the ids of the collection are pairwise distinct, a deleted id
    is gone: after [delete_course] a lookup of the id finds nothing, and a
    second [delete_course] of the same id returns [False] and changes
    nothing. *)
Theorem delete_course_then_get (course_id : Z) (self : t) :
  NoDup (id <$> courses self) →
  let self' := (delete_course course_id self).2 in
  get_course_by_id course_id self' = None ∧
  delete_course course_id self' = (Return false, self').
Proof.
  intros Hnd self'.
  assert (get_course_by_id course_id self' = None) as Hgone.
  { subst self'.
    destruct (find_course course_id self) as [[k c]|] eqn:Hfind.
    - destruct (delete_course_found _ _ _ _ Hfind)
        as (l1 & l2 & Hl & Hc & Hl1 & ->). simpl.
      apply get_course_by_id_None. simpl. intros c' Hin Hc'.
      rewrite Hl, fmap_app, fmap_cons in Hnd.
      apply NoDup_app in Hnd as (_ & Hdisj & Hnd2).
      apply NoDup_cons in Hnd2 as [Hnotin _].
      apply elem_of_app in Hin as [Hin|Hin].
      + rewrite Forall_forall in Hl1. by apply (Hl1 c').
      + apply Hnotin. apply list_elem_of_fmap. exists c'.
        split; [congruence|done].
    - unfold delete_course, get_course_by_id. rewrite Hfind. simpl.
      unfold get_course_by_id. by rewrite Hfind. }
  split; [done|]. unfold delete_course at 1. by rewrite Hgone.
Qed.

Lemma delete_course_then_get_witness :
  NoDup (id <$> courses init) ∧
  get_course_by_id 2 (delete_course 2 init).2 = None ∧
  delete_course 2 (delete_course 2 init).2 =
    (Return false, (delete_course 2 init).2).
Proof.
  split; [exact (proj1 ids_ok_init)|].
  exact (delete_course_then_get 2 init (proj1 ids_ok_init)).
Defined.

(** X7: neither [update_course] nor [delete_course] raises, in any state:
    the assignments of an update always name fields of the model, and the
    course handed to [list.remove] is always in the list. *)
Theorem update_and_delete_never_raise (course_id : Z) (u : CourseUpdate)
    (self : t) :
  (∃ r, (update_course course_id u self).1 = Return r) ∧
  (∃ b, (delete_course course_id self).1 = Return b).
Proof.
  split.
  - destruct (find_course course_id self) as [[k c]|] eqn:Hfind.
    + rewrite (update_course_found _ _ _ _ _ Hfind). by eexists.
    + unfold update_course. rewrite Hfind. by eexists.
  - destruct (find_course course_id self) as [[k c]|] eqn:Hfind.
    + destruct (delete_course_found _ _ _ _ Hfind)
        as (l1 & l2 & _ & _ & _ & ->). by eexists.
    + unfold delete_course, get_course_by_id. rewrite Hfind. by eexists.
Qed.

Lemma step_next_id (self : t) (o : op) :
  next_id (step self o) =
  next_id self + match o with Add _ => 1 | _ => 0 end.
Proof.
  destruct o as [d|i u|i]; simpl.
  - done.
  - destruct (find_course i self) as [[k c]|] eqn:Hfind.
    + rewrite (update_course_found _ _ _ _ _ Hfind). simpl. lia.
    + unfold update_course. rewrite Hfind. simpl. lia.
  - destruct (find_course i self) as [[k c]|] eqn:Hfind.
    + destruct (delete_course_found _ _ _ _ Hfind)
        as (l1 & l2 & _ & _ & _ & ->). simpl. lia.
    + unfold delete_course, get_course_by_id. rewrite Hfind. simpl. lia.
Qed.

(** X8: over any sequence of operations from any state, [next_id] grows by
    exactly the number of [add_course] calls and is never lowered by an
    update or a delete, so the id of a deleted course is not handed out
    again. *)
Theorem next_id_counts_adds (ops : list op) (self : t) :
  next_id (run ops self) = next_id self + count_adds ops.
Proof.
  unfold run. revert self. induction ops as [|o ops IH]; intros self; simpl.
  - lia.
  - rewrite IH, step_next_id. destruct o; lia.
Qed.

End CourseMore.

(** ** More on the gateway *)

Module GatewayMore.
Import Gateway GatewayFacts.

Section WithEnv.
Context `{Env}.

(** *** Tokens *)

Lemma and_then_Passed (a b : checked) :
  and_then a b = Passed ↔ a = Passed ∧ b = Passed.
Proof. destruct a; simpl; [tauto|split; [done|by intros [? _]]..]. Qed.

Lemma check_time_claim_Passed (p : list (string * json)) (k : string)
    (bad : jwt_error) (refused : Z → Prop) `{∀ z, Decision (refused z)}
    (e : jwt_error) :
  check_time_claim p k bad refused e = Passed ↔
  ∀ v, dict_get k p = Some v → ∃ z, py_int v = IntOk z ∧ ¬ refused z.
Proof.
  unfold check_time_claim. destruct (dict_get k p) as [v|]; [|done].
  destruct (py_int v) as [z| |other] eqn:Hint.
  - case_decide.
    + split; [done|]. intros Hv. destruct (Hv v eq_refl) as (z' & Hz & ?).
      rewrite Hint in Hz. by simplify_eq.
    + split; [|done]. intros _ v' [= <-]. by exists z.
  - split; [done|]. intros Hv. destruct (Hv v eq_refl) as (z' & Hz & _).
    by rewrite Hint in Hz.
  - split; [done|]. intros Hv. destruct (Hv v eq_refl) as (z' & Hz & _).
    by rewrite Hint in Hz.
Qed.

Lemma check_str_claim_Passed (p : list (string * json)) (k : string)
    (e : jwt_error) :
  check_str_claim p k e = Passed ↔
  ∀ v, dict_get k p = Some v → ∃ s, v = JStr s.
Proof.
  unfold check_str_claim.
  destruct (dict_get k p) as [[| | | |s| |]|];
    split; try done;
    try (intros Hv; by destruct (Hv _ eq_refl) as (s' & ?)).
  intros _ v [= <-]. by exists s.
Qed.

(** The claim checks pass exactly when the claims admit the instant. *)
Lemma validate_claims_Passed (p : list (string * json)) (now : Z) :
  validate_claims p now = Passed ↔ claims_admit p now.
Proof.
  unfold validate_claims, claims_admit.
  rewrite !and_then_Passed, !check_time_claim_Passed,
    !check_str_claim_Passed.
  assert ((match dict_get "aud" p with
           | Some aud =>
               if py_truthy aud then Rejected InvalidAudienceError
               else Passed
           | None => Passed
           end = Passed) ↔
          (∀ v, dict_get "aud" p = Some v → py_truthy v = false)) as ->.
  { destruct (dict_get "aud" p) as [aud|]; [|done].
    destruct (py_truthy aud) eqn:Haud.
    - split; [done|]. intros Hv. specialize (Hv aud eq_refl).
      by rewrite Haud in Hv.
    - split; [|done]. by intros _ v [= <-]. }
  split.
  - intros (Hiat & Hnbf & Hexp & Haud & Hsub & Hjti).
    split_and!; try done; intros v Hv.
    + destruct (Hiat v Hv) as (z & ? & ?). exists z. split; [done|lia].
    + destruct (Hnbf v Hv) as (z & ? & ?). exists z. split; [done|lia].
    + destruct (Hexp v Hv) as (z & ? & ?). exists z. split; [done|lia].
  - intros (Hiat & Hnbf & Hexp & Haud & Hsub & Hjti).
    split_and!; try done; intros v Hv.
    + destruct (Hiat v Hv) as (z & ? & ?). exists z. split; [done|lia].
    + destruct (Hnbf v Hv) as (z & ? & ?). exists z. split; [done|lia].
    + destruct (Hexp v Hv) as (z & ? & ?). exists z. split; [done|lia].
Qed.

Lemma check_time_claim_Crashed (p : list (string * json)) (k : string)
    (bad : jwt_error) (refused : Z → Prop) `{∀ z, Decision (refused z)}
    (e : jwt_error) (other : exn) :
  check_time_claim p k bad refused e = Crashed other →
  ∃ v, dict_get k p = Some v ∧ py_int v = IntRaises other.
Proof.
  unfold check_time_claim. destruct (dict_get k p) as [v|]; [|done].
  destruct (py_int v) as [z| |other'] eqn:Hint; try done.
  - by case_decide.
  - intros [= <-]. by exists v.
Qed.

(** The claim checks end in an exception that is not the library's own
    only when [int()] raises it on a time claim. *)
Lemma validate_claims_Crashed (p : list (string * json)) (now : Z)
    (e : exn) :
  validate_claims p now = Crashed e → int_raised_on p e.
Proof.
  unfold validate_claims, int_raised_on.
  destruct (check_time_claim p "iat" _ _ _) eqn:Hiat; simpl; try done.
  2:{ intros [= <-]. apply check_time_claim_Crashed in Hiat as (v & ? & ?).
      exists "iat", v. split_and!; [|done|done]. by left. }
  destruct (check_time_claim p "nbf" _ _ _) eqn:Hnbf; simpl; try done.
  2:{ intros [= <-]. apply check_time_claim_Crashed in Hnbf as (v & ? & ?).
      exists "nbf", v. split_and!; [|done|done]. right. by left. }
  destruct (check_time_claim p "exp" _ _ _) eqn:Hexp; simpl; try done.
  2:{ intros [= <-]. apply check_time_claim_Crashed in Hexp as (v & ? & ?).
      exists "exp", v. split_and!; [|done|done]. right. right. by left. }
  destruct (dict_get "aud" p) as [aud|]; [destruct (py_truthy aud)|];
    simpl; try done; unfold check_str_claim;
    destruct (dict_get "sub" p) as [[]|]; simpl; try done;
    by destruct (dict_get "jti" p) as [[]|].
Qed.

(** Every way [verify_token] can end, by the shape of the credential. *)
Lemma verify_token_cases (creds : HTTPAuthorizationCredentials) (w : World) :
  (∃ p s,
     credentials creds =
       Compact ALGORITHM (JObj p) (hmac SECRET_KEY ALGORITHM (JObj p)) ∧
     claims_admit p (now_us w) ∧ dict_get "sub" p = Some (JStr s) ∧
     verify_token creds w = (Return (JStr s), w)) ∨
  (∃ code message,
     (code = "TOKEN_EXPIRED" ∨ code = "INVALID_TOKEN") ∧
     verify_token creds w =
       (Raise (HTTPException 401
                 (error_detail code message [] (now_us w))), w)) ∨
  (∃ p e,
     credentials creds =
       Compact ALGORITHM (JObj p) (hmac SECRET_KEY ALGORITHM (JObj p)) ∧
     int_raised_on p e ∧
     verify_token creds w = (Raise e, w)).
Proof.
  assert (∀ r : result json * World,
            (∃ message,
               r = (Raise (HTTPException 401
                      (error_detail "INVALID_TOKEN" message [] (now_us w))),
                    w)) →
            ∃ code message,
              (code = "TOKEN_EXPIRED" ∨ code = "INVALID_TOKEN") ∧
              r = (Raise (HTTPException 401
                     (error_detail code message [] (now_us w))), w))
    as Hinvalid.
  { intros r (message & ->). exists "INVALID_TOKEN", message.
    split; [by right|done]. }
  destruct creds as [sch [raw|alg payload signature]];
    unfold verify_token, jwt_decode; run.
  { right. left. apply Hinvalid. by eexists. }
  destruct (decide (alg ∈ [ALGORITHM])) as [Halg|Halg].
  2:{ right. left. apply Hinvalid. by eexists. }
  apply list_elem_of_singleton in Halg as ->.
  destruct (decide (signature = hmac SECRET_KEY ALGORITHM payload))
    as [->|Hsig].
  2:{ right. left. apply Hinvalid. by eexists. }
  destruct payload as [| | | | | |p];
    try (right; left; apply Hinvalid; by eexists).
  destruct (validate_claims p (now_us w)) as [|e|e] eqn:Hvalid.
  - apply validate_claims_Passed in Hvalid.
    destruct (dict_get "sub" p) as [v|] eqn:Hsub.
    + destruct Hvalid as (Hiat & Hnbf & Hexp & Haud & Hstr & Hjti).
      destruct (Hstr v Hsub) as (s & ->). left. exists p, s.
      split_and!; try done.
    + right. left. apply Hinvalid. by eexists.
  - right. left.
    destruct e; try (apply Hinvalid; by eexists).
    do 2 eexists. split; [by left|done].
  - right. right. exists p, e. split_and!; [done| |done].
    by eapply validate_claims_Crashed.
Qed.

(** X9: [verify_token] returns a subject exactly for a credential that
    names the algorithm HS256, carries the signature of its payload under
    the server's key, has registered claims that admit the instant of the
    check, and has a subject, which is then a string and is what is
    returned.  Every other credential makes it raise: a 401 error whose
    code is TOKEN_EXPIRED or INVALID_TOKEN, or, when the token is signed
    under the server's key and a time claim holds a value that [int()]
    refuses with a [TypeError] or an [OverflowError], that exception,
    which no [except] clause catches.  In every case the
    state (outbound calls, log, clock) is as before. *)
Theorem verify_token_accepts_iff
    (creds : HTTPAuthorizationCredentials) (w : World) :
  (∀ u w',
     verify_token creds w = (Return u, w') ↔
     w' = w ∧
     ∃ p s, credentials creds =
              Compact ALGORITHM (JObj p)
                (hmac SECRET_KEY ALGORITHM (JObj p)) ∧
            claims_admit p (now_us w) ∧
            dict_get "sub" p = Some (JStr s) ∧ u = JStr s) ∧
  (∀ e w',
     verify_token creds w = (Raise e, w') →
     w' = w ∧
     ((∃ code message,
         (code = "TOKEN_EXPIRED" ∨ code = "INVALID_TOKEN") ∧
         e = HTTPException 401 (error_detail code message [] (now_us w))) ∨
      (∃ p,
         credentials creds =
           Compact ALGORITHM (JObj p)
             (hmac SECRET_KEY ALGORITHM (JObj p)) ∧
         int_raised_on p e))).
Proof.
  assert (∀ p s,
            credentials creds =
              Compact ALGORITHM (JObj p)
                (hmac SECRET_KEY ALGORITHM (JObj p)) →
            claims_admit p (now_us w) →
            dict_get "sub" p = Some (JStr s) →
            verify_token creds w = (Return (JStr s), w)) as Haccept.
  { intros p s Htok Hadmit Hsub. destruct creds as [sch tok].
    simpl in Htok. subst tok. unfold verify_token, jwt_decode. run.
    rewrite (decide_True (P := _ = _)) by reflexivity.
    apply validate_claims_Passed in Hadmit. rewrite Hadmit, Hsub. done. }
  split.
  - intros u w'. split.
    + destruct (verify_token_cases creds w)
        as [(p & s & Htok & Hadmit & Hsub & Hrun)|
            [(code & message & _ & Hrun)|(p & e & _ & _ & Hrun)]];
        rewrite Hrun; intros [= <- <-].
      split; [done|]. by exists p, s.
    + intros (-> & p & s & Htok & Hadmit & Hsub & ->).
      by apply (Haccept p s).
  - intros e w'.
    destruct (verify_token_cases creds w)
      as [(p & s & _ & _ & _ & Hrun)|
          [(code & message & Hcode & Hrun)|
           (p & e0 & Htok & Hint & Hrun)]];
      rewrite Hrun; intros [= <- <-]; split; try done.
    + left. by exists code, message.
    + right. by exists p.
Qed.

Lemma dict_get_set_eq {V} (k : string) (v : V) (d : list (string * V)) :
  dict_get k (dict_set k v d) = Some v.
Proof.
  induction d as [|[k' v'] d IH]; simpl.
  - by rewrite decide_True.
  - destruct (decide (k' = k)) as [->|Hne]; simpl.
    + by rewrite decide_True.
    + by rewrite decide_False.
Qed.

Lemma dict_get_set_ne {V} (k k' : string) (v : V) (d : list (string * V)) :
  k ≠ k' → dict_get k (dict_set k' v d) = dict_get k d.
Proof.
  intros Hne. induction d as [|[k0 v0] d IH]; simpl.
  - by rewrite decide_False.
  - destruct (decide (k0 = k')) as [->|Hne0]; simpl.
    + by rewrite !decide_False.
    + by rewrite IH.
Qed.

Lemma dict_set_keys_in {V} (k : string) (v : V) (d : list (string * V)) :
  k ∈ dict_keys d → dict_keys (dict_set k v d) = dict_keys d.
Proof.
  unfold dict_keys. induction d as [|[k' v'] d IH]; intros Hin.
  - by apply elem_of_nil in Hin.
  - cbn [dict_set]. destruct (decide (k' = k)) as [->|Hne]; [done|].
    rewrite !fmap_cons. f_equal. apply IH.
    apply elem_of_cons in Hin as [Heq|Hin]; [|done]. simpl in Heq. congruence.
Qed.

Lemma dict_set_keys_notin {V} (k : string) (v : V) (d : list (string * V)) :
  k ∉ dict_keys d → dict_keys (dict_set k v d) = dict_keys d ++ [k].
Proof.
  unfold dict_keys. induction d as [|[k' v'] d IH]; intros Hnin; [done|].
  rewrite fmap_cons in Hnin. apply not_elem_of_cons in Hnin as [Hne Hnin].
  cbn [dict_set]. rewrite decide_False by (simpl in Hne; congruence).
  rewrite !fmap_cons. simpl. f_equal. by apply IH.
Qed.

Lemma encode_claims_json (data : list (string * json)) :
  encode_claims (json_claims data) = Some data.
Proof.
  induction data as [|[k j] data IH]; [done|].
  change (json_claims ((k, j) :: data)) with
    ((k, CJson j) :: json_claims data).
  cbn [encode_claims]. by rewrite IH.
Qed.

Lemma encode_claims_exp (data : list (string * json)) (expire : Z) :
  encode_claims (dict_set "exp" (CDatetime expire) (json_claims data)) =
  Some (dict_set "exp" (JInt (timegm expire)) data).
Proof.
  induction data as [|[k j] data IH]; [done|].
  change (json_claims ((k, j) :: data)) with
    ((k, CJson j) :: json_claims data).
  cbn [dict_set]. destruct (decide (k = "exp")) as [->|Hne].
  - cbn [encode_claims]. rewrite encode_claims_json.
    rewrite decide_True by (by left). reflexivity.
  - cbn [encode_claims]. rewrite IH. reflexivity.
Qed.

Lemma dict_get_json_claims (k : string) (data : list (string * json)) :
  dict_get k (json_claims data) = CJson <$> dict_get k data.
Proof.
  induction data as [|[k' j] data IH]; [done|].
  change (json_claims ((k', j) :: data)) with
    ((k', CJson j) :: json_claims data).
  cbn [dict_get]. simpl. by destruct (decide (k' = k)).
Qed.

(** [create_access_token] on a dict of JSON claims, by the [iss] claim. *)
Lemma create_access_token_run (data : list (string * json)) (w : World) :
  create_access_token (json_claims data) w =
  match dict_get "iss" data with
  | None | Some (JStr _) =>
      let p :=
        dict_set "exp"
          (JInt (timegm (now_us w +
                         ACCESS_TOKEN_EXPIRE_MINUTES * 60 * 1000000)))
          data in
      (Return (Compact ALGORITHM (JObj p)
                 (hmac SECRET_KEY ALGORITHM (JObj p))), w)
  | Some _ =>
      (Raise (OtherException "TypeError" "Issuer (iss) must be a string."),
       w)
  end.
Proof.
  unfold create_access_token, jwt_encode, dict_update. run.
  cbn [foldl fst snd]. rewrite dict_get_set_ne by done.
  rewrite dict_get_json_claims, encode_claims_exp.
  by destruct (dict_get "iss" data) as [[]|].
Qed.

(** X10: for a dict of JSON claims whose [iss], if it has one, is a
    string, [create_access_token] returns a token signed under the
    server's key whose [exp] is the whole second thirty minutes after the
    instant of issue, whatever [exp] the caller put in the dict; every
    other claim is the caller's, and the keys keep their order, [exp]
    going last when the caller gave none.  For a dict whose [iss] is not a
    string it raises the library's [TypeError] and issues nothing.  The
    state is as before in both cases. *)
Theorem create_access_token_claims
    (data : list (string * json)) (w : World) :
  ((∀ v, dict_get "iss" data = Some v → ∃ s, v = JStr s) →
   ∃ p,
     create_access_token (json_claims data) w =
       (Return (Compact ALGORITHM (JObj p)
                  (hmac SECRET_KEY ALGORITHM (JObj p))), w) ∧
     dict_get "exp" p =
       Some (JInt (timegm (now_us w +
                           ACCESS_TOKEN_EXPIRE_MINUTES * 60 * 1000000))) ∧
     (∀ k, k ≠ "exp" → dict_get k p = dict_get k data) ∧
     dict_keys p =
       if decide ("exp" ∈ dict_keys data) then dict_keys data
       else dict_keys data ++ ["exp"]) ∧
  (∀ v, dict_get "iss" data = Some v → (∀ s, v ≠ JStr s) →
     create_access_token (json_claims data) w =
       (Raise (OtherException "TypeError" "Issuer (iss) must be a string."),
        w)).
Proof.
  split.
  - intros Hiss. eexists. split_and!.
    + rewrite create_access_token_run.
      destruct (dict_get "iss" data) as [v|] eqn:Hv; [|reflexivity].
      destruct (Hiss v eq_refl) as (s & ->). reflexivity.
    + apply dict_get_set_eq.
    + intros k Hk. by apply dict_get_set_ne.
    + destruct (decide ("exp" ∈ dict_keys data)).
      * by apply dict_set_keys_in.
      * by apply dict_set_keys_notin.
  - intros v Hv Hstr. rewrite create_access_token_run, Hv.
    destruct v; try done. by destruct (Hstr s).
Qed.

(** [verify_token] on an issued token, by the instant of the check. *)
Lemma verify_token_issued (subject sch : string) (exp : Z) (w' : World) :
  verify_token (mkCredentials sch (issued subject exp)) w' =
  if decide (exp * 1000000 ≤ now_us w') then
    (Raise (HTTPException 401
       (error_detail "TOKEN_EXPIRED"
          "Token has expired. Please login again." [] (now_us w'))), w')
  else (Return (JStr subject), w').
Proof.
  unfold verify_token, jwt_decode, issued. run.
  rewrite (decide_True (P := _ = _)) by reflexivity.
  rewrite validate_claims_issued.
  by destruct (decide (exp * 1000000 ≤ now_us w')).
Qed.

Lemma expiry_bounds (t : Z) :
  t + 1799000000 < timegm (t + 1800000000) * 1000000 ≤ t + 1800000000.
Proof.
  unfold timegm.
  pose proof (Z.div_mod (t + 1800000000) 1000000 ltac:(lia)).
  pose proof (Z.mod_pos_bound (t + 1800000000) 1000000 ltac:(lia)).
  lia.
Qed.

(** X11: a token issued for a login is accepted at every instant up to
    29 minutes 59 seconds after the instant of issue and is expired from
    30 minutes after it on: the expiry is cut to a whole second, so the
    lifetime is less than a second short of thirty minutes and never
    longer. *)
Theorem token_lifetime (subject sch : string) (w w0 w' : World)
    (tok : token) :
  create_access_token [("sub", CJson (JStr subject))] w = (Return tok, w0) →
  (now_us w' ≤ now_us w + 1799000000 →
     verify_token (mkCredentials sch tok) w' =
       (Return (JStr subject), w')) ∧
  (now_us w + 1800000000 ≤ now_us w' →
     verify_token (mkCredentials sch tok) w' =
       (Raise (HTTPException 401
          (error_detail "TOKEN_EXPIRED"
             "Token has expired. Please login again." [] (now_us w'))),
        w')).
Proof.
  rewrite create_access_token_sub. intros [= <- _].
  pose proof (expiry_bounds (now_us w)) as Hb.
  change (Compact "HS256" ?p ?s) with
    (issued subject (timegm (now_us w + 30 * 60 * 1000000))).
  rewrite verify_token_issued.
  change (30 * 60 * 1000000) with 1800000000.
  split; intros Hnow.
  - rewrite decide_False by lia. reflexivity.
  - rewrite decide_True by lia. reflexivity.
Qed.

(** *** Login *)

Lemma USERS_lookup (u p : string) :
  dict_get u USERS = Some p ↔
  (u = "admin" ∧ p = "password123") ∨ (u = "student" ∧ p = "student123").
Proof.
  unfold USERS. cbn [dict_get].
  destruct (decide ("admin" = u)) as [<-|Hadmin].
  - split; [intros [= <-]; by left|].
    intros [[_ ->]|[Hu _]]; [done|discriminate Hu].
  - destruct (decide ("student" = u)) as [<-|Hstudent].
    + split; [intros [= <-]; by right|].
      intros [[Hu _]|[_ ->]]; [discriminate Hu|done].
    + split; [done|]. intros [[-> _]|[-> _]]; done.
Qed.

Lemma login_run (creds : LoginRequest) (w : World) :
  login creds w =
  if decide (dict_get (username creds) USERS = Some (password creds)) then
    (Return {| access_token :=
                 issued (username creds) (timegm (now_us w + 1800000000));
               token_type := "bearer";
               expires_in := "30 minutes" |},
     {| now_us := now_us w; calls := calls w;
        log := log w ++
               [mkLog INFO ("Successful login for user: " +:+
                            username creds)] |})
  else
    (Raise (HTTPException 401
       (error_detail "INVALID_CREDENTIALS" "Incorrect username or password"
          [] (now_us w))),
     {| now_us := now_us w; calls := calls w;
        log := log w ++
               [mkLog WARNING ("Failed login attempt for user: " +:+
                               username creds)] |}).
Proof.
  unfold login. case_decide; [|done].
  unfold mbind, M_bind at 1. rewrite create_access_token_sub. by destruct w.
Qed.

(** X12: [login] succeeds exactly for the two accounts of the user table,
    with their own passwords: it then returns a bearer token issued for
    the user name, announced as valid for 30 minutes, and logs the login.
    For every other pair of name and password it raises the 401 error
    INVALID_CREDENTIALS, logs a warning, and issues no token. *)
Theorem login_spec (creds : LoginRequest) (w : World) :
  let known :=
    (username creds = "admin" ∧ password creds = "password123") ∨
    (username creds = "student" ∧ password creds = "student123") in
  (known →
     login creds w =
       (Return {| access_token :=
                    issued (username creds)
                      (timegm (now_us w + 1800000000));
                  token_type := "bearer";
                  expires_in := "30 minutes" |},
        {| now_us := now_us w; calls := calls w;
           log := log w ++
                  [mkLog INFO ("Successful login for user: " +:+
                               username creds)] |})) ∧
  (¬ known →
     login creds w =
       (Raise (HTTPException 401
          (JObj [("error", JStr "INVALID_CREDENTIALS");
                 ("message", JStr "Incorrect username or password");
                 ("timestamp", JStr (isoformat (now_us w)))])),
        {| now_us := now_us w; calls := calls w;
           log := log w ++
                  [mkLog WARNING ("Failed login attempt for user: " +:+
                                  username creds)] |})).
Proof.
  intros known. subst known. rewrite login_run, <- USERS_lookup.
  split; intros Hk.
  - by rewrite decide_True.
  - by rewrite decide_False.
Qed.

(** X13: the token a successful [login] returns is accepted by
    [verify_token] at every instant up to 29 minutes 59 seconds after the
    login, under any scheme name, and the subject it yields is the user
    name that logged in. *)
Theorem login_then_verify (creds : LoginRequest) (w w0 w' : World)
    (res : LoginResult) (sch : string) :
  login creds w = (Return res, w0) →
  now_us w' ≤ now_us w + 1799000000 →
  verify_token (mkCredentials sch (access_token res)) w' =
    (Return (JStr (username creds)), w').
Proof.
  rewrite login_run. case_decide; [|done]. intros [= <- _] Hnow. simpl.
  rewrite verify_token_issued.
  pose proof (expiry_bounds (now_us w)). rewrite decide_False by lia. done.
Qed.

(** *** Protected routes *)


(** *** Forwarding *)

Lemma json_if_text_run (response : HttpxResponse) (w : World) :
  json_if_text response w =
  match parsed_body response with
  | Some j => (Return j, w)
  | None => (Raise (ValueError (json_error (hr_text response))), w)
  end.
Proof.
  unfold json_if_text, parsed_body, response_json.
  destruct (decide (hr_text response = "")); [done|].
  by destruct (json_loads (hr_text response)).
Qed.

(** What [forward_request] does with the outcome of its outbound call. *)
Lemma forward_request_outcome
    (service base path method : string) (v : verb) (kwargs : Kwargs)
    (w : World) :
  dict_get service SERVICES = Some base →
  verb_of method = Some v →
  let w' := after_call base path method v kwargs w in
  forward_request service path method kwargs w =
  match (transport (mkCall v (base +:+ path) kwargs)).1 with
  | Responded response =>
      if decide (hr_status_code response = 404) then
        (Raise (HTTPException 404
           (error_detail "RESOURCE_NOT_FOUND"
              ("The requested resource was not found in " +:+ service +:+
               " service") [("path", JStr path)] (now_us w'))), w')
      else if decide (hr_status_code response = 422) then
        match parsed_body response with
        | Some details =>
            (Raise (HTTPException 422
               (error_detail "VALIDATION_ERROR"
                  "Request data failed validation" [("details", details)]
                  (now_us w'))), w')
        | None =>
            (Raise (ValueError (json_error (hr_text response))), w')
        end
      else if decide (500 ≤ hr_status_code response) then
        (Raise (HTTPException 502
           (error_detail "SERVICE_ERROR"
              ("The " +:+ service +:+
               " service encountered an internal error") [] (now_us w'))),
         w')
      else
        match parsed_body response with
        | Some content =>
            match json_dumps content with
            | Some rendered =>
                (Return (rendered_response rendered content
                           (hr_status_code response)), w')
            | None => (Raise (ValueError (render_error content)), w')
            end
        | None =>
            (Raise (ValueError (json_error (hr_text response))), w')
        end
  | Failed e => transport_handler service (base +:+ path) base e w'
  end.
Proof.
  intros Hbase Hverb w'. subst w'.
  unfold forward_request. rewrite Hbase. run.
  rewrite (dispatch_verb _ _ _ _ Hverb), client_request_run. simpl.
  destruct (transport _).1 as [response|e]; [|done].
  unfold after_call. simpl.
  repeat case_decide; try done; rewrite json_if_text_run;
    destruct (parsed_body response) as [content|]; try done.
  unfold JSONResponse. by destruct (json_dumps content).
Qed.

(** X15: for a registered service and a supported method, a backend
    response with status 404 makes [forward_request] raise the 404 error
    RESOURCE_NOT_FOUND carrying the requested path; the error is built from
    the service name, the path and the clock, so the backend's own 404 body
    does not reach the caller. *)
Theorem forward_backend_404
    (service base path method : string) (v : verb) (kwargs : Kwargs)
    (w : World) (response : HttpxResponse) :
  dict_get service SERVICES = Some base →
  verb_of method = Some v →
  (transport (mkCall v (base +:+ path) kwargs)).1 = Responded response →
  hr_status_code response = 404 →
  let w' := after_call base path method v kwargs w in
  forward_request service path method kwargs w =
    (Raise (HTTPException 404
       (JObj [("error", JStr "RESOURCE_NOT_FOUND");
              ("message",
               JStr ("The requested resource was not found in " +:+
                     service +:+ " service"));
              ("path", JStr path);
              ("timestamp", JStr (isoformat (now_us w')))])),
     w').
Proof.
  intros Hbase Hverb Hnet Hstatus w'. subst w'.
  rewrite (forward_request_outcome _ _ _ _ _ _ _ Hbase Hverb), Hnet.
  by rewrite decide_True.
Qed.

(** X16: for a registered service and a supported method, a backend
    response with status 422 makes [forward_request] raise the 422 error
    VALIDATION_ERROR whose [details] are the backend's parsed body, or
    null for an empty body; when the body is neither empty nor JSON, the
    parse error, a [ValueError] with the parser's message for that body,
    escapes instead and no 422 error is built. *)
Theorem forward_backend_422
    (service base path method : string) (v : verb) (kwargs : Kwargs)
    (w : World) (response : HttpxResponse) :
  dict_get service SERVICES = Some base →
  verb_of method = Some v →
  (transport (mkCall v (base +:+ path) kwargs)).1 = Responded response →
  hr_status_code response = 422 →
  let w' := after_call base path method v kwargs w in
  forward_request service path method kwargs w =
    match parsed_body response with
    | Some details =>
        (Raise (HTTPException 422
           (JObj [("error", JStr "VALIDATION_ERROR");
                  ("message", JStr "Request data failed validation");
                  ("details", details);
                  ("timestamp", JStr (isoformat (now_us w')))])),
         w')
    | None => (Raise (ValueError (json_error (hr_text response))), w')
    end.
Proof.
  intros Hbase Hverb Hnet Hstatus w'. subst w'.
  rewrite (forward_request_outcome _ _ _ _ _ _ _ Hbase Hverb), Hnet.
  rewrite decide_False by lia. by rewrite decide_True.
Qed.

(** X17: whenever [forward_request] returns a response, the service is
    registered, the method is supported, the backend answered, and the
    response has the backend's status, which is below 500 and neither 404
    nor 422; its content is the backend's parsed body, or null for an empty
    body, and its body is that content rendered as JSON again, which
    therefore succeeded. *)
Theorem forward_returned_status
    (service path method : string) (kwargs : Kwargs) (w w' : World)
    (r : Response) :
  forward_request service path method kwargs w = (Return r, w') →
  ∃ base v response content rendered,
    dict_get service SERVICES = Some base ∧
    verb_of method = Some v ∧
    (transport (mkCall v (base +:+ path) kwargs)).1 = Responded response ∧
    parsed_body response = Some content ∧
    json_dumps content = Some rendered ∧
    r = rendered_response rendered content (hr_status_code response) ∧
    hr_status_code response ≠ 404 ∧
    hr_status_code response ≠ 422 ∧
    hr_status_code response < 500 ∧
    w' = after_call base path method v kwargs w.
Proof.
  destruct (dict_get service SERVICES) as [base|] eqn:Hbase.
  2:{ unfold forward_request. rewrite Hbase. by run. }
  destruct (verb_of method) as [v|] eqn:Hverb.
  2:{ unfold forward_request. rewrite Hbase. run.
      by rewrite dispatch_unsupported. }
  rewrite (forward_request_outcome _ _ _ _ _ _ _ Hbase Hverb).
  destruct (transport _).1 as [response|e] eqn:Hnet.
  - repeat case_decide; try done;
      destruct (parsed_body response) as [content|] eqn:Hbody; try done.
    destruct (json_dumps content) as [rendered|] eqn:Hrender; [|done].
    intros [= <- <-]. exists base, v, response, content, rendered.
    split_and!; try done. lia.
  - destruct e as [| cls m | | | |]; try done. unfold transport_handler. run.
    destruct (is_ConnectError cls); [done|].
    by destruct (is_TimeoutException cls).
Qed.

Lemma forward_request_unknown
    (service path method : string) (kwargs : Kwargs) (w : World) :
  dict_get service SERVICES = None →
  forward_request service path method kwargs w =
    (Raise (HTTPException 404
       (error_detail "SERVICE_NOT_FOUND"
          ("Service '" +:+ service +:+ "' does not exist")
          [("available_services", JArr (JStr <$> dict_keys SERVICES))]
          (now_us w))),
     {| now_us := now_us w; calls := calls w;
        log := log w ++
               [mkLog WARNING ("Unknown service requested: " +:+ service)]
     |}).
Proof. intros Hbase. unfold forward_request. by rewrite Hbase. Qed.

Lemma forward_request_unsupported
    (service base path method : string) (kwargs : Kwargs) (w : World) :
  dict_get service SERVICES = Some base →
  verb_of method = None →
  forward_request service path method kwargs w =
    (Raise (HTTPException 405
       (error_detail "METHOD_NOT_ALLOWED"
          ("HTTP method '" +:+ method +:+ "' is not supported") []
          (now_us w))),
     {| now_us := now_us w; calls := calls w;
        log := log w ++
               [mkLog INFO ("FORWARDING | " +:+ method +:+ " → " +:+
                            base +:+ path)] |}).
Proof.
  intros Hbase Hverb. unfold forward_request. rewrite Hbase.
  unfold mbind, M_bind, try_except, logger.
  by rewrite dispatch_unsupported.
Qed.

Lemma transport_handler_run (service url base : string)
    (cls : httpx_class) (description : string) (w : World) :
  transport_handler service url base (HttpxRequestError cls description) w =
  if is_ConnectError cls then
    (Raise (HTTPException 503
       (error_detail "SERVICE_UNAVAILABLE"
          ("Cannot connect to " +:+ service +:+
           " service. Make sure it is running.")
          [("service_url", JStr base)] (now_us w))),
     {| now_us := now_us w; calls := calls w;
        log := log w ++
               [mkLog ERROR ("Cannot connect to " +:+ service +:+
                             " service at " +:+ url)] |})
  else if is_TimeoutException cls then
    (Raise (HTTPException 504
       (error_detail "GATEWAY_TIMEOUT"
          ("The " +:+ service +:+ " service took too long to respond") []
          (now_us w))),
     {| now_us := now_us w; calls := calls w;
        log := log w ++
               [mkLog ERROR ("Timeout connecting to " +:+ service +:+
                             " service at " +:+ url)] |})
  else
    (Raise (HTTPException 503
       (error_detail "REQUEST_FAILED"
          ("Failed to reach " +:+ service +:+ " service: " +:+ description)
          [] (now_us w))),
     {| now_us := now_us w; calls := calls w;
        log := log w ++
               [mkLog ERROR ("Request error for " +:+ service +:+
                             " service: " +:+ description)] |}).
Proof.
  unfold transport_handler.
  destruct (is_ConnectError cls); [done|].
  by destruct (is_TimeoutException cls).
Qed.

Lemma transport_handler_world (service url base : string) (e : exn)
    (w : World) :
  calls (transport_handler service url base e w).2 = calls w ∧
  now_us (transport_handler service url base e w).2 = now_us w.
Proof.
  destruct e as [| cls m | | | |]; try done. unfold transport_handler. run.
  destruct (is_ConnectError cls); [done|].
  by destruct (is_TimeoutException cls).
Qed.

(** X18: [forward_request] makes a single attempt.  For a registered
    service and a supported method it issues exactly one outbound call, to
    the service's base address followed by the path, with the keyword
    arguments it was given, whatever the outcome; in every other case it
    issues none. *)
Theorem forward_single_attempt
    (service path method : string) (kwargs : Kwargs) (w : World) :
  calls (forward_request service path method kwargs w).2 =
  match dict_get service SERVICES, verb_of method with
  | Some base, Some v => calls w ++ [mkCall v (base +:+ path) kwargs]
  | _, _ => calls w
  end.
Proof.
  destruct (dict_get service SERVICES) as [base|] eqn:Hbase.
  2:{ unfold forward_request. rewrite Hbase. by run. }
  destruct (verb_of method) as [v|] eqn:Hverb.
  - by apply forward_request_calls.
  - unfold forward_request. rewrite Hbase. run.
    by rewrite dispatch_unsupported.
Qed.

(** X19: as long as the transport does not itself raise an
    [HTTPException], every [HTTPException] that [forward_request] raises
    has the same shape: a detail object with [error], [message], possibly
    further members, and last a [timestamp] of the instant the error was
    built; and its status and error code are one of the eight pairs of
    [forward_errors]. *)
Theorem forward_error_envelope
    (service path method : string) (kwargs : Kwargs) (w w' : World)
    (status : Z) (detail : json) :
  (∀ c status' detail',
     (transport c).1 ≠ Failed (HTTPException status' detail')) →
  forward_request service path method kwargs w =
    (Raise (HTTPException status detail), w') →
  ∃ code message extra,
    detail = JObj ([("error", JStr code); ("message", JStr message)] ++
                   extra ++ [("timestamp", JStr (isoformat (now_us w')))]) ∧
    (status, code) ∈ forward_errors.
Proof.
  intros Hnet.
  assert (∀ s c m x t (w1 w2 : World),
            bool_decide ((s, c) ∈ forward_errors) = true →
            t = now_us w1 →
            (Raise (HTTPException s (error_detail c m x t)), w1) =
              (@Raise Response (HTTPException status detail), w2) →
            ∃ code message extra,
              detail = JObj ([("error", JStr code);
                              ("message", JStr message)] ++ extra ++
                             [("timestamp", JStr (isoformat (now_us w2)))]) ∧
              (status, code) ∈ forward_errors) as Hshape.
  { intros s c m x t w1 w2 Hin -> [= <- <- <-]. exists c, m, x.
    split; [done|]. by eapply bool_decide_eq_true_1. }
  destruct (dict_get service SERVICES) as [base|] eqn:Hbase.
  2:{ rewrite forward_request_unknown by done. by apply Hshape. }
  destruct (verb_of method) as [v|] eqn:Hverb.
  2:{ rewrite (forward_request_unsupported _ _ _ _ _ _ Hbase Hverb).
      by apply Hshape. }
  rewrite (forward_request_outcome _ _ _ _ _ _ _ Hbase Hverb).
  destruct (transport _).1 as [response|e] eqn:Hout.
  - repeat case_decide; try (by apply Hshape);
      destruct (parsed_body response) as [content|]; try done;
      [by apply Hshape|by destruct (json_dumps content)].
  - destruct e as [s0 d0| cls m | | | |]; try done.
    + by destruct (Hnet _ _ _ Hout).
    + rewrite transport_handler_run.
      destruct (is_ConnectError cls); [by apply Hshape|].
      destruct (is_TimeoutException cls); by apply Hshape.
Qed.

(** X20: an exception of the outbound call that is not an httpx request
    error (an invalid URL, say) is caught by no [except] clause: it leaves
    [forward_request] as it is, after the one call, and no error line is
    logged for it. *)
Theorem forward_foreign_exception
    (service base path method : string) (v : verb) (kwargs : Kwargs)
    (w : World) (e : exn) :
  dict_get service SERVICES = Some base →
  verb_of method = Some v →
  (transport (mkCall v (base +:+ path) kwargs)).1 = Failed e →
  (∀ cls description, e ≠ HttpxRequestError cls description) →
  forward_request service path method kwargs w =
    (Raise e, after_call base path method v kwargs w).
Proof.
  intros Hbase Hverb Hnet Hforeign.
  rewrite (forward_request_outcome _ _ _ _ _ _ _ Hbase Hverb), Hnet.
  destruct e as [| cls m | | | |]; try done. by destruct (Hforeign cls m).
Qed.

(** X21: the whole path of a listing.  With the token of a successful
    login, presented within 29 minutes 59 seconds, the protected route
    [get_all_courses] issues one GET to the course backend, and when the
    backend answers with a status that is passed through and a JSON body,
    the caller gets that status and that body, rendered as JSON again;
    when the body cannot be rendered (it holds a number out of range), the
    rendering error, a [ValueError], escapes instead. *)
Theorem login_then_list_courses
    (creds : LoginRequest) (w w0 w1 : World) (res : LoginResult)
    (response : HttpxResponse) (body : json) :
  login creds w = (Return res, w0) →
  now_us w1 ≤ now_us w + 1799000000 →
  (transport (mkCall GET "http://localhost:8002/api/courses" no_kwargs)).1 =
    Responded response →
  hr_status_code response ≠ 404 →
  hr_status_code response ≠ 422 →
  hr_status_code response < 500 →
  parsed_body response = Some body →
  protected (mkCredentials "Bearer" (access_token res)) get_all_courses w1 =
    (match json_dumps body with
     | Some rendered =>
         Return (rendered_response rendered body (hr_status_code response))
     | None => Raise (ValueError (render_error body))
     end,
     after_call "http://localhost:8002" "/api/courses" "GET" GET no_kwargs
       w1).
Proof.
  intros Hlogin Hnow Hnet H404 H422 H500 Hbody.
  rewrite login_run in Hlogin. case_decide; [|done].
  injection Hlogin as <- _. simpl.
  unfold protected, mbind, M_bind. rewrite verify_token_issued.
  pose proof (expiry_bounds (now_us w)). rewrite decide_False by lia.
  unfold get_all_courses.
  rewrite (forward_request_outcome "course" "http://localhost:8002"
             "/api/courses" "GET" GET no_kwargs w1 eq_refl eq_refl).
  change ("http://localhost:8002" +:+ "/api/courses") with
    "http://localhost:8002/api/courses".
  rewrite Hnet, !decide_False by lia. rewrite Hbody.
  by destruct (json_dumps body).
Qed.

(** *** The logging middleware *)

(** X22: for a request with a client address, [log_requests] adds exactly
    one record after those of the rest of the pipeline: an INFO record with
    the final status and the elapsed time when a response comes back, an
    ERROR record with the text of the exception and the elapsed time when
    an [Exception] is raised, and nothing for an exception outside
    [Exception] (a cancellation).  It issues no outbound call and does not
    touch the clock. *)
Theorem log_requests_records
    (request : Request) (host : string) (call_next : Request → M Response)
    (w : World) :
  req_client request = Some host →
  let out := call_next request (entered request host w) in
  let w2 := (log_requests request call_next w).2 in
  let t := float_str (elapsed_ms (now_us w) (now_us out.2)) in
  calls w2 = calls out.2 ∧
  now_us w2 = now_us out.2 ∧
  log w2 =
    log out.2 ++
    match out.1 with
    | Return response =>
        [mkLog INFO ("RESPONSE | " +:+ req_method request +:+ " " +:+
                     req_path request +:+ " | Status: " +:+
                     pretty (status_code response) +:+ " | Time: " +:+
                     t +:+ "ms")]
    | Raise e =>
        if is_Exception e then
          [mkLog ERROR ("ERROR    | " +:+ req_method request +:+ " " +:+
                        req_path request +:+ " | Error: " +:+ exn_str e +:+
                        " | Time: " +:+ t +:+ "ms")]
        else []
    end.
Proof.
  intros Hhost out w2 t. subst out w2 t.
  rewrite (log_requests_run _ _ _ _ Hhost).
  destruct (call_next request _) as [[response|e] w1]; simpl; [done|].
  destruct (is_Exception e); simpl; [done|]. by rewrite app_nil_r.
Qed.

Lemma dict_get_filter_ne (k key : string) (hs : list (string * string)) :
  k ≠ key → dict_get k (filter (λ kv, kv.1 ≠ key) hs) = dict_get k hs.
Proof.
  intros Hne. induction hs as [|[k0 v0] hs IH]; [done|].
  rewrite filter_cons. simpl.
  destruct (decide (k0 ≠ key)) as [Hk0|Hk0]; simpl.
  - by rewrite IH.
  - rewrite IH. rewrite decide_False; [done|].
    intros ->. by apply Hk0.
Qed.

Lemma headers_get_set_ne (k key value : string)
    (hs : list (string * string)) :
  k ≠ key → dict_get k (headers_set key value hs) = dict_get k hs.
Proof.
  intros Hne. induction hs as [|[k0 v0] hs IH]; simpl.
  - by rewrite decide_False.
  - destruct (decide (k0 = key)) as [->|Hk0]; simpl.
    + rewrite !decide_False by done. by apply dict_get_filter_ne.
    + by rewrite IH.
Qed.

Lemma filter_name_after_drop (key : string) (hs : list (string * string)) :
  filter (λ kv, kv.1 = key) (filter (λ kv, kv.1 ≠ key) hs) = [].
Proof.
  induction hs as [|[k v] hs IH]; [done|].
  rewrite (filter_cons (λ kv, kv.1 ≠ key)). simpl.
  destruct (decide (k ≠ key)) as [Hk|Hk]; [|exact IH].
  rewrite filter_cons. simpl. by rewrite decide_False.
Qed.

Lemma headers_set_once (key value : string) (hs : list (string * string)) :
  filter (λ kv, kv.1 = key) (headers_set key value hs) = [(key, value)].
Proof.
  induction hs as [|[k0 v0] hs IH]; simpl.
  - rewrite filter_cons. simpl. by rewrite decide_True.
  - destruct (decide (k0 = key)) as [->|Hk0].
    + rewrite filter_cons. simpl. rewrite decide_True by done.
      by rewrite filter_name_after_drop.
    + rewrite filter_cons. simpl. by rewrite decide_False.
Qed.

(** X23: the response [log_requests] returns keeps every header of the
    pipeline's response under any other name, and has exactly one
    [x-process-time] entry, also when the pipeline's response already
    carried one or several. *)
Theorem log_requests_other_headers
    (request : Request) (call_next : Request → M Response) (w w2 : World)
    (r : Response) :
  log_requests request call_next w = (Return r, w2) →
  ∃ host response w1 value,
    call_next request (entered request host w) = (Return response, w1) ∧
    (∀ k, lower k ≠ "x-process-time" →
          headers_get k r = headers_get k response) ∧
    filter (λ kv, kv.1 = "x-process-time") (headers r) =
      [("x-process-time", value)].
Proof.
  destruct (req_client request) as [host|] eqn:Hhost.
  2:{ by rewrite log_requests_no_client. }
  rewrite (log_requests_run _ _ _ _ Hhost).
  destruct (call_next request _) as [[response|e] w1] eqn:Hnext; [|done].
  intros [= <- _]. exists host, response, w1. eexists.
  split_and!; [done| |].
  - intros k Hk. unfold headers_get, headers_setitem. simpl.
    by apply headers_get_set_ne.
  - apply headers_set_once.
Qed.

(** X24: a request without a client address never enters the pipeline:
    building the request line fails with an [AttributeError] before the
    [try], so nothing is logged, the rest of the pipeline is not called,
    and the state is as it was. *)
Theorem log_requests_without_client
    (request : Request) (call_next : Request → M Response) (w : World) :
  req_client request = None →
  ∃ message,
    log_requests request call_next w = (Raise (AttributeError message), w) ∧
    ∀ other_next, log_requests request other_next w =
                  log_requests request call_next w.
Proof.
  intros Hnone. eexists. split; [by apply log_requests_no_client|].
  intros other_next. by rewrite !log_requests_no_client.
Qed.

(** *** Routes *)

(** X25: each read, create and delete route issues exactly one outbound
    call: to its own backend, with the verb of the operation and the path
    of the resource; a create sends every field of the model as the JSON
    body, the other routes send none. *)
Theorem routes_call_their_backend (current_user : json) (w : World) :
  let student := "http://localhost:8001/api/students" in
  let course := "http://localhost:8002/api/courses" in
  let sent (m : M Response) := calls (m w).2 in
  sent (get_all_students current_user) =
    calls w ++ [mkCall GET student no_kwargs] ∧
  (∀ i, sent (get_student i current_user) =
        calls w ++ [mkCall GET (student +:+ "/" +:+ pretty i) no_kwargs]) ∧
  (∀ s, sent (create_student s current_user) =
        calls w ++
        [mkCall POST student
           {| kw_json :=
                Some (JObj [("name", JStr (sc_name s));
                            ("age", JInt (sc_age s));
                            ("email", JStr (sc_email s));
                            ("course", JStr (sc_course s))]) |}]) ∧
  (∀ i, sent (delete_student i current_user) =
        calls w ++ [mkCall DELETE (student +:+ "/" +:+ pretty i) no_kwargs]) ∧
  sent (get_all_courses current_user) =
    calls w ++ [mkCall GET course no_kwargs] ∧
  (∀ i, sent (get_course i current_user) =
        calls w ++ [mkCall GET (course +:+ "/" +:+ pretty i) no_kwargs]) ∧
  (∀ c, sent (create_course c current_user) =
        calls w ++
        [mkCall POST course
           {| kw_json :=
                Some (JObj [("title", JStr (cc_title c));
                            ("description", JStr (cc_description c));
                            ("duration_weeks", JInt (cc_duration_weeks c));
                            ("instructor", JStr (cc_instructor c));
                            ("max_students", JInt (cc_max_students c))]) |}])
  ∧
  (∀ i, sent (delete_course i current_user) =
        calls w ++ [mkCall DELETE (course +:+ "/" +:+ pretty i) no_kwargs]).
Proof.
  intros student course sent. subst student course sent. cbv beta.
  unfold get_all_students, get_student, create_student, delete_student,
    get_all_courses, get_course, create_course, delete_course.
  split_and!; intros;
    (erewrite forward_request_calls; [|reflexivity|reflexivity]);
    reflexivity.
Qed.

(** X26: the item routes of two different ids never address the same
    backend path. *)
Theorem item_paths_distinct (i j : Z) (current_user : json) (w : World) :
  i ≠ j →
  calls (get_student i current_user w).2 ≠
    calls (get_student j current_user w).2 ∧
  calls (get_course i current_user w).2 ≠
    calls (get_course j current_user w).2.
Proof.
  intros Hne. unfold get_student, get_course.
  split; intros Heq;
    (erewrite !forward_request_calls in Heq; [|reflexivity..]);
    apply app_inv_head in Heq; simplify_eq/=;
    apply Hne; by eapply (inj pretty).
Qed.

End WithEnv.

(** *** The theorems on concrete inputs *)

Lemma verify_token_accepts_iff_witness :
  @verify_token (sample_env net_200)
    (mkCredentials "Bearer" (@issued (sample_env net_200) "admin" 1800))
    sample_world =
    (Return (JStr "admin"), sample_world).
Proof.
  apply (proj1 (@verify_token_accepts_iff (sample_env net_200)
                  (mkCredentials "Bearer"
                     (@issued (sample_env net_200) "admin" 1800))
                  sample_world)).
  split; [reflexivity|].
  exists [("sub", JStr "admin"); ("exp", JInt 1800)], "admin".
  split_and!; try reflexivity.
  unfold claims_admit.
  split_and!; intros v Hv; vm_compute in Hv; try discriminate Hv;
    injection Hv as <-.
  - exists 1800. split; [reflexivity|]. simpl. lia.
  - by exists "admin".
Defined.

(** A token signed under the server's key whose [exp] is null: [int()]
    raises a [TypeError], which leaves [verify_token] as it is. *)
Example verify_token_exp_null :
  @verify_token (sample_env net_200)
    (mkCredentials "Bearer"
       (Compact "HS256" (JObj [("sub", JStr "admin"); ("exp", JNull)])
          (@hmac (sample_env net_200) SECRET_KEY "HS256"
             (JObj [("sub", JStr "admin"); ("exp", JNull)]))))
    sample_world =
    (Raise (OtherException "TypeError"
       "int() argument must be a string, a bytes-like object or a real number, not 'NoneType'"),
     sample_world).
Proof. reflexivity. Qed.

(** A token signed under the server's key whose [nbf] lies after the
    instant of the check, and one whose [sub] is a number: both are
    refused with INVALID_TOKEN. *)
Example verify_token_nbf_sub :
  @verify_token (sample_env net_200)
    (mkCredentials "Bearer"
       (Compact "HS256" (JObj [("sub", JStr "admin"); ("nbf", JInt 60)])
          (@hmac (sample_env net_200) SECRET_KEY "HS256"
             (JObj [("sub", JStr "admin"); ("nbf", JInt 60)]))))
    sample_world =
    (Raise (HTTPException 401
       (@error_detail (sample_env net_200) "INVALID_TOKEN"
          "Could not validate token" [] 0)), sample_world) ∧
  @verify_token (sample_env net_200)
    (mkCredentials "Bearer"
       (Compact "HS256" (JObj [("sub", JInt 7)])
          (@hmac (sample_env net_200) SECRET_KEY "HS256"
             (JObj [("sub", JInt 7)]))))
    sample_world =
    (Raise (HTTPException 401
       (@error_detail (sample_env net_200) "INVALID_TOKEN"
          "Could not validate token" [] 0)), sample_world).
Proof. split; reflexivity. Qed.

Lemma create_access_token_claims_witness :
  (∃ p,
     @create_access_token (sample_env net_200)
       (json_claims [("sub", JStr "admin"); ("exp", JInt 5)]) sample_world =
       (Return (Compact "HS256" (JObj p)
                  (@hmac (sample_env net_200) SECRET_KEY "HS256" (JObj p))),
        sample_world) ∧
     dict_get "exp" p = Some (JInt 1800) ∧
     dict_keys p = ["sub"; "exp"]) ∧
  @create_access_token (sample_env net_200)
    (json_claims [("sub", JStr "admin"); ("iss", JInt 7)]) sample_world =
    (Raise (OtherException "TypeError" "Issuer (iss) must be a string."),
     sample_world).
Proof.
  split.
  - destruct (proj1 (@create_access_token_claims (sample_env net_200)
                       [("sub", JStr "admin"); ("exp", JInt 5)]
                       sample_world))
      as (p & Hrun & Hexp & _ & Hkeys).
    { intros v Hv. vm_compute in Hv. discriminate Hv. }
    exists p. split_and!; [exact Hrun|exact Hexp|exact Hkeys].
  - apply (proj2 (@create_access_token_claims (sample_env net_200)
                    [("sub", JStr "admin"); ("iss", JInt 7)] sample_world)
             (JInt 7) eq_refl).
    intros s. discriminate.
Defined.

Lemma token_lifetime_witness :
  @create_access_token (sample_env net_200) [("sub", CJson (JStr "admin"))]
    sample_world =
    (Return (@issued (sample_env net_200) "admin" 1800), sample_world) ∧
  @verify_token (sample_env net_200)
    (mkCredentials "Bearer" (@issued (sample_env net_200) "admin" 1800))
    {| now_us := 1799000000; calls := []; log := [] |} =
    (Return (JStr "admin"),
     {| now_us := 1799000000; calls := []; log := [] |}).
Proof.
  assert (@create_access_token (sample_env net_200)
            [("sub", CJson (JStr "admin"))] sample_world =
          (Return (@issued (sample_env net_200) "admin" 1800), sample_world))
    as Hissue by reflexivity.
  split; [exact Hissue|].
  apply (proj1 (@token_lifetime (sample_env net_200) "admin" "Bearer"
                  sample_world sample_world
                  {| now_us := 1799000000; calls := []; log := [] |}
                  _ Hissue)).
  by vm_compute.
Defined.

Lemma login_spec_witness :
  (∃ res w0,
     @login (sample_env net_200) (mkLogin "admin" "password123")
       sample_world = (Return res, w0)) ∧
  (∃ detail w0,
     @login (sample_env net_200) (mkLogin "admin" "letmein") sample_world =
       (Raise (HTTPException 401 detail), w0)).
Proof.
  split.
  - do 2 eexists.
    apply (proj1 (@login_spec (sample_env net_200)
                    (mkLogin "admin" "password123") sample_world)).
    by left.
  - do 2 eexists.
    apply (proj2 (@login_spec (sample_env net_200)
                    (mkLogin "admin" "letmein") sample_world)).
    intros [[_ Hp]|[Hu _]]; discriminate.
Defined.

Lemma login_then_verify_witness :
  ∃ res w0,
    @login (sample_env net_200) (mkLogin "student" "student123")
      sample_world = (Return res, w0) ∧
    @verify_token (sample_env net_200)
      (mkCredentials "Bearer" (access_token res))
      {| now_us := 60000000; calls := []; log := [] |} =
      (Return (JStr "student"),
       {| now_us := 60000000; calls := []; log := [] |}).
Proof.
  do 2 eexists.
  split; [reflexivity|].
  apply (@login_then_verify (sample_env net_200)
           (mkLogin "student" "student123") sample_world _
           {| now_us := 60000000; calls := []; log := [] |} _ "Bearer"
           eq_refl).
  by vm_compute.
Defined.

Lemma forward_backend_404_witness :
  @forward_request (sample_env net_404) "course" "/api/courses/999" "GET"
    no_kwargs sample_world =
    (Raise (HTTPException 404
       (JObj [("error", JStr "RESOURCE_NOT_FOUND");
              ("message",
               JStr "The requested resource was not found in course service");
              ("path", JStr "/api/courses/999");
              ("timestamp", JStr "700")])),
     {| now_us := 700;
        calls :=
          [mkCall GET "http://localhost:8002/api/courses/999" no_kwargs];
        log :=
          [mkLog INFO
             "FORWARDING | GET → http://localhost:8002/api/courses/999"] |}).
Proof.
  exact (@forward_backend_404 (sample_env net_404) "course"
           "http://localhost:8002" "/api/courses/999" "GET" GET no_kwargs
           sample_world (mkHttpxResponse 404 "[]")
           eq_refl eq_refl eq_refl eq_refl).
Defined.

Lemma forward_backend_422_witness :
  (@forward_request (sample_env net_422) "student" "/api/students" "POST"
     no_kwargs sample_world).1 =
    Raise (HTTPException 422
      (JObj [("error", JStr "VALIDATION_ERROR");
             ("message", JStr "Request data failed validation");
             ("details", JArr []);
             ("timestamp", JStr "700")])) ∧
  (@forward_request (sample_env net_422_html) "student" "/api/students"
     "POST" no_kwargs sample_world).1 =
    Raise (ValueError "Expecting value: line 1 column 1 (char 0)").
Proof.
  split.
  - exact (f_equal fst
      (@forward_backend_422 (sample_env net_422) "student"
         "http://localhost:8001" "/api/students" "POST" POST no_kwargs
         sample_world (mkHttpxResponse 422 "[]")
         eq_refl eq_refl eq_refl eq_refl)).
  - exact (f_equal fst
      (@forward_backend_422 (sample_env net_422_html) "student"
         "http://localhost:8001" "/api/students" "POST" POST no_kwargs
         sample_world (mkHttpxResponse 422 "<html>")
         eq_refl eq_refl eq_refl eq_refl)).
Defined.

Lemma forward_returned_status_witness :
  ∃ base v response content rendered,
    dict_get "course" SERVICES = Some base ∧
    verb_of "GET" = Some v ∧
    (@transport (sample_env net_200)
       (mkCall v (base +:+ "/api/courses") no_kwargs)).1 =
      Responded response ∧
    @parsed_body (sample_env net_200) response = Some content ∧
    @json_dumps (sample_env net_200) content = Some rendered ∧
    rendered_response "[]" (JArr []) 200 =
      rendered_response rendered content (hr_status_code response) ∧
    hr_status_code response ≠ 404 ∧
    hr_status_code response ≠ 422 ∧
    hr_status_code response < 500 ∧
    @after_call (sample_env net_200) "http://localhost:8002" "/api/courses"
      "GET" GET no_kwargs sample_world =
    @after_call (sample_env net_200) base "/api/courses" "GET" v no_kwargs
      sample_world.
Proof.
  exact (@forward_returned_status (sample_env net_200) "course"
           "/api/courses" "GET" no_kwargs sample_world
           (@after_call (sample_env net_200) "http://localhost:8002"
              "/api/courses" "GET" GET no_kwargs sample_world)
           (rendered_response "[]" (JArr []) 200) eq_refl).
Defined.

Lemma forward_error_envelope_witness :
  ∃ code message extra,
    JObj [("error", JStr "SERVICE_ERROR");
          ("message",
           JStr "The course service encountered an internal error");
          ("timestamp", JStr "1500")] =
    JObj ([("error", JStr code); ("message", JStr message)] ++ extra ++
          [("timestamp", JStr "1500")]) ∧
    (502, code) ∈ forward_errors.
Proof.
  refine (@forward_error_envelope (sample_env net_500) "course"
            "/api/courses" "GET" no_kwargs sample_world
            {| now_us := 1500;
               calls :=
                 [mkCall GET "http://localhost:8002/api/courses" no_kwargs];
               log :=
                 [mkLog INFO
                    "FORWARDING | GET → http://localhost:8002/api/courses"]
            |}
            502 _ _ eq_refl).
  intros c status' detail'. discriminate.
Defined.

Lemma forward_foreign_exception_witness :
  @forward_request (sample_env net_invalid_url) "course" "/api/courses"
    "GET" no_kwargs sample_world =
    (Raise (OtherException "InvalidURL" "Invalid non-printable character"),
     {| now_us := 0;
        calls := [mkCall GET "http://localhost:8002/api/courses" no_kwargs];
        log :=
          [mkLog INFO
             "FORWARDING | GET → http://localhost:8002/api/courses"] |}).
Proof.
  refine (@forward_foreign_exception (sample_env net_invalid_url) "course"
            "http://localhost:8002" "/api/courses" "GET" GET no_kwargs
            sample_world _ eq_refl eq_refl eq_refl _).
  intros cls description. discriminate.
Defined.

Lemma login_then_list_courses_witness :
  ∃ res w0,
    @login (sample_env net_200) (mkLogin "admin" "password123")
      sample_world = (Return res, w0) ∧
    @protected (sample_env net_200) _
      (mkCredentials "Bearer" (access_token res))
      (@get_all_courses (sample_env net_200))
      {| now_us := 60000000; calls := []; log := [] |} =
    (Return (rendered_response "[]" (JArr []) 200),
     {| now_us := 60001500;
        calls := [mkCall GET "http://localhost:8002/api/courses" no_kwargs];
        log :=
          [mkLog INFO
             "FORWARDING | GET → http://localhost:8002/api/courses"] |}).
Proof.
  do 2 eexists. split; [reflexivity|].
  refine (@login_then_list_courses (sample_env net_200)
            (mkLogin "admin" "password123") sample_world _
            {| now_us := 60000000; calls := []; log := [] |} _
            (mkHttpxResponse 200 "[]") (JArr [])
            eq_refl _ eq_refl _ _ _ eq_refl);
    by vm_compute.
Defined.

Lemma log_requests_records_witness :
  calls (@log_requests (sample_env net_200) sample_request
           (λ _, @get_all_courses (sample_env net_200) JNull)
           sample_world).2 =
    [mkCall GET "http://localhost:8002/api/courses" no_kwargs] ∧
  log (@log_requests (sample_env net_200) sample_request
         (λ _, @get_all_courses (sample_env net_200) JNull)
         sample_world).2 =
    [mkLog INFO "REQUEST  | GET /gateway/courses | Client: 127.0.0.1";
     mkLog INFO "FORWARDING | GET → http://localhost:8002/api/courses";
     mkLog INFO "RESPONSE | GET /gateway/courses | Status: 200 | Time: 1500000ms"].
Proof.
  pose proof (@log_requests_records (sample_env net_200) sample_request
                "127.0.0.1"
                (λ _, @get_all_courses (sample_env net_200) JNull)
                sample_world eq_refl) as (Hcalls & _ & Hlog).
  split; [exact Hcalls|exact Hlog].
Defined.

Lemma log_requests_other_headers_witness :
  ∃ host response w1 value,
    @get_all_courses (sample_env net_200) JNull
      (entered sample_request host sample_world) = (Return response, w1) ∧
    (∀ k, lower k ≠ "x-process-time" →
          headers_get k
            (headers_setitem "X-Process-Time" "1500000ms"
               (rendered_response "[]" (JArr []) 200)) =
          headers_get k response) ∧
    filter (λ kv, kv.1 = "x-process-time")
      (headers (headers_setitem "X-Process-Time" "1500000ms"
                  (rendered_response "[]" (JArr []) 200))) =
      [("x-process-time", value)].
Proof.
  exact (@log_requests_other_headers (sample_env net_200) sample_request
           (λ _, @get_all_courses (sample_env net_200) JNull) sample_world
           _ _ eq_refl).
Defined.

Lemma log_requests_without_client_witness :
  ∃ message,
    @log_requests (sample_env net_200) (mkRequest "GET" "/" None)
      (λ _, @get_all_courses (sample_env net_200) JNull) sample_world =
    (Raise (AttributeError message), sample_world).
Proof.
  destruct (@log_requests_without_client (sample_env net_200)
              (mkRequest "GET" "/" None)
              (λ _, @get_all_courses (sample_env net_200) JNull)
              sample_world eq_refl) as (message & Hrun & _).
  by exists message.
Defined.

Lemma item_paths_distinct_witness :
  1 ≠ 2 ∧
  calls (@get_course (sample_env net_200) 1 JNull sample_world).2 ≠
  calls (@get_course (sample_env net_200) 2 JNull sample_world).2.
Proof.
  assert (1 ≠ 2) as Hne by lia. split; [exact Hne|].
  exact (proj2 (@item_paths_distinct (sample_env net_200) 1 2 JNull
                  sample_world Hne)).
Defined.

End GatewayMore.
